(** * Lease-backed monitors of sensu-go: [backend/monitor/monitors.go]

    The monitor service binds a leased etcd key to every monitored name.
    [RefreshMonitor] either renews the lease of an existing key or grants
    a new lease, writes the key and starts a watcher; the watcher reacts
    to the first DELETE or PUT event on the key.

    The etcd client and the two handlers are interfaces in the source;
    they are type classes here, and every statement about the service is
    proved for all their instances.  An in-memory store ([MemStore]) is
    one instance, used to run the service on concrete inputs. *)

From Stdlib Require Import ZArith Ascii String.
From stdpp Require Import base tactics option list strings gmap.

Local Open Scope string_scope.
Local Open Scope list_scope.
Local Open Scope Z_scope.

(** ** Go values *)

(** [strconv.ErrSyntax] and [strconv.ErrRange]. *)
Inductive NumErr := ErrSyntax | ErrRange.

(** Go's [error] interface: the [*strconv.NumError] that [ParseInt] builds,
    or any error a store call or a handler hands back. *)
Inductive error :=
| NumError (Func Num : string) (Err : NumErr)
| StoreError (msg : string)
| HandlerError (msg : string).

(** A Go pair [(value, err)] in which exactly one side is set. *)
Inductive result (A : Type) :=
| Ok (a : A)
| Err (e : error).
Arguments Ok {A} a.
Arguments Err {A} e.

(** The [err] of a pair [(_, err)], [None] for nil. *)
Definition err_of {A : Type} (r : result A) : option error :=
  match r with
  | Ok _ => None
  | Err e => Some e
  end.

Definition maxUint64 : Z := 2 ^ 64 - 1.
Definition minInt64 : Z := - 2 ^ 63.
Definition maxInt64 : Z := 2 ^ 63 - 1.

Definition is_int64 (n : Z) : Prop := minInt64 <= n <= maxInt64.

(** ** [strconv] and [fmt] on decimal integers *)

Module strconv.

(** The value of a byte, [uint64(s[i])]. *)
Definition byte_val (c : ascii) : Z := Z.of_N (N_of_ascii c).

(** [byte('0' + d)]. *)
Definition digit_byte (d : Z) : ascii := ascii_of_N (Z.to_N (48 + d)).

(** The loop of [ParseUint(s, 10, 64)] with [n] the value read so far:
    a byte outside ['0'..'9'] is a syntax error with [n = 0]; a value
    that leaves 64 bits is a range error with [n = maxUint64]. *)
Fixpoint ParseUint_loop (s : string) (n : Z) : Z * option NumErr :=
  match s with
  | EmptyString => (n, None)
  | String d rest =>
      if (48 <=? byte_val d) && (byte_val d <=? 57) then
        let v := byte_val d - 48 in
        (* cutoff = maxUint64/10 + 1 *)
        if maxUint64 / 10 + 1 <=? n then (maxUint64, Some ErrRange)
        else
          let n10 := (n * 10) mod 2 ^ 64 in
          let n1 := (n10 + v) mod 2 ^ 64 in
          if (n1 <? n10) || (maxUint64 <? n1) then (maxUint64, Some ErrRange)
          else ParseUint_loop rest n1
      else (0, Some ErrSyntax)
  end.

(** [ParseUint(s, 10, 64)]: the value and the kind of error, if any. *)
Definition ParseUint (s : string) : Z * option NumErr :=
  match s with
  | EmptyString => (0, Some ErrSyntax)
  | _ => ParseUint_loop s 0
  end.

(** [ParseInt(s, 10, 64)]. *)
Definition ParseInt (s : string) : result Z :=
  match s with
  | EmptyString => Err (NumError "ParseInt" s ErrSyntax)
  | String c rest =>
      let neg := bool_decide (c = "-"%char) in
      let s' := if bool_decide (c = "+"%char) then rest
                else if neg then rest else s in
      let '(un, err) := ParseUint s' in
      match err with
      | Some ErrSyntax => Err (NumError "ParseInt" s ErrSyntax)
      | _ =>
          let cutoff := 2 ^ 63 in
          if negb neg && (cutoff <=? un) then Err (NumError "ParseInt" s ErrRange)
          else if neg && (cutoff <? un) then Err (NumError "ParseInt" s ErrRange)
          else Ok (if neg then - un else un)
      end
  end.

(** The digit loop of [fmt]'s integer formatting, base 10: digits are
    written from the right into [buf]; [fuel] is the room in the buffer. *)
Fixpoint fmt_digits (fuel : nat) (u : Z) (buf : string) : string :=
  match fuel with
  | O => buf
  | S fuel' =>
      if 10 <=? u then
        let next := u / 10 in
        fmt_digits fuel' next (String (digit_byte (u - next * 10)) buf)
      else String (digit_byte u) buf
  end.

(** [fmt.Sprintf("%d", a)] for [a : int64]: the magnitude is taken in
    [uint64], so that the least int64 has one. *)
Definition Sprintf_d (a : Z) : string :=
  let negative := a <? 0 in
  let u := if negative then (- a) mod 2 ^ 64 else a in
  let digits := fmt_digits 20 u "" in
  if negative then String "-"%char digits else digits.

End strconv.

(** ** The etcd client, as the service sees it *)

(** The identity of a [context.Context] value. *)
Definition Context := nat.

Module mvccpb.

Record KeyValue := { Key : string; Value : string; Lease : Z }.

(** [Event_EventType] is an int32 with two named values. *)
Definition PUT : Z := 0.
Definition DELETE : Z := 1.

Record Event := { Type_ : Z; Kv : KeyValue }.

End mvccpb.

Module clientv3.

Definition LeaseID := Z.

Record GetResponse := { Kvs : list mvccpb.KeyValue }.
Record LeaseGrantResponse := { ID : LeaseID; TTL : Z }.
Record WatchResponse := { Events : list mvccpb.Event; Canceled : bool }.

(** The calls of [*clientv3.Client] on a key or a lease.  A call takes
    the client to a new state and answers with a response or an error.
    [Watch] only registers the subscription; its channel is fed by the
    store (see [recv] and [cancel] below). *)
Class Client (C : Type) := {
  Get : C -> Context -> string -> C * result GetResponse;
  Put : C -> Context -> string -> string -> LeaseID -> C * result unit;
  Delete : C -> Context -> string -> C * result unit;
  Grant : C -> Context -> Z -> C * result LeaseGrantResponse;
  Revoke : C -> Context -> LeaseID -> C * result unit;
  KeepAliveOnce : C -> Context -> LeaseID -> C * result unit;
  Watch : C -> Context -> string -> C
}.

End clientv3.

(** ** The key builder *)

Module store.

(** Modelled from the spec: [store.NewKeyBuilder] and [KeyBuilder.Build]
    are declared in backend/store, which is not among the sources.  The
    spec gives the key as [<fixed-namespace>/<name>], "opaque string
    concatenation", with [monitors/entity1] for the name [entity1]. *)
Record KeyBuilder := { resourceName : string }.

Definition NewKeyBuilder (resourceName : string) : KeyBuilder :=
  {| resourceName := resourceName |}.

Definition Build (b : KeyBuilder) (name : string) : string :=
  resourceName b +:+ "/" +:+ name.

End store.

Definition monitorPathPrefix : string := "monitors".
Definition monitorKeyBuilder : store.KeyBuilder := store.NewKeyBuilder monitorPathPrefix.

(** ** The handlers *)

(** Modelled from the spec: the interfaces [FailureHandler] and
    [ErrorHandler] are declared in another file of the package; the spec
    gives [HandleFailure(entity, event) -> error] and [HandleError(error)]
    without a result.  A handler is an object with a state of its own. *)
Class FailureHandler (F Entity Event : Type) :=
  HandleFailure : F -> Entity -> Event -> F * option error.

Class ErrorHandler (E : Type) :=
  HandleError : E -> error -> E.

(** ** The monitor service *)

Module Monitor.
Record monitor := { key : string; leaseID : clientv3.LeaseID; ttl : Z }.
End Monitor.
Abbreviation monitor := Monitor.monitor.

(** What the service does to the outside, in the order it does it. *)
Inductive Op {Entity Event : Type} :=
| OpGet (ctx : Context) (key : string)
| OpPut (ctx : Context) (key val : string) (lease : clientv3.LeaseID)
| OpDelete (ctx : Context) (key : string)
| OpGrant (ctx : Context) (ttl : Z)
| OpRevoke (ctx : Context) (id : clientv3.LeaseID)
| OpKeepAliveOnce (ctx : Context) (id : clientv3.LeaseID)
| OpWatch (ctx : Context) (key : string)
| OpHandleFailure (entity : Entity) (event : Event)
| OpHandleError (err : error)
| OpLogInfo (msg : string).
Arguments Op : clear implicits.

(** The states of the goroutine that [watchMon] starts: reading its
    channel, returned after the failure handler, returned after the
    shutdown handler, or out of the loop because the channel was closed. *)
Inductive TaskState := Active | Failed | Superseded | Closed.

Section Service.

Context {Entity Event : Type}.
Context {C : Type} `{!clientv3.Client C}.
Context {F : Type} `{!FailureHandler F Entity Event}.
Context {E : Type} `{!ErrorHandler E}.

(** [EtcdService]: the two handlers and the client, each with its state;
    [trace] is a ghost field that records every call made through them. *)
Record EtcdService := {
  failureHandler : F;
  errorHandler : E;
  client : C;
  trace : list (Op Entity Event)
}.

Definition NewEtcdService (client : C) (fail : F) (err : E) : EtcdService :=
  {| client := client; failureHandler := fail; errorHandler := err; trace := [] |}.

(** A Go [func()] that closes over the service. *)
Definition Callback : Type := EtcdService -> EtcdService.

(** A goroutine started by [watchMon], with what it closed over. *)
Record Watcher := {
  w_ctx : Context;
  w_key : string;
  w_failureHandler : Callback;
  w_shutdownHandler : Callback;
  w_state : TaskState
}.

(** The process: the service and the goroutines started so far. *)
Record World := { service : EtcdService; tasks : list Watcher }.

(** State passing over the process. *)
Definition St (A : Type) : Type := World -> A * World.

#[local] Instance St_ret : MRet St := fun A a w => (a, w).
#[local] Instance St_bind : MBind St :=
  fun A B f m w => let '(a, w') := m w in f a w'.

Definition log (op : Op Entity Event) (m : EtcdService) : EtcdService :=
  {| failureHandler := failureHandler m; errorHandler := errorHandler m;
     client := client m; trace := trace m ++ [op] |}.

Definition with_client (c : C) (m : EtcdService) : EtcdService :=
  {| failureHandler := failureHandler m; errorHandler := errorHandler m;
     client := c; trace := trace m |}.

(** The process after the call [op], which left the client in [c]. *)
Definition called (op : Op Entity Event) (c : C) (w : World) : World :=
  {| service := with_client c (log op (service w)); tasks := tasks w |}.

(** A call on [m.client], recorded in the trace. *)
Definition rpc {A : Type} (op : Op Entity Event) (call : C -> C * A) : St A :=
  fun w => let '(c', r) := call (client (service w)) in (r, called op c' w).

(** [go func() { ... }()] *)
Definition spawn (t : Watcher) : St unit :=
  fun w => (tt, {| service := service w; tasks := tasks w ++ [t] |}).

(** [getMonitor]: [(nil, err)], [(nil, nil)] or [(mon, nil)]. *)
Definition getMonitor (ctx : Context) (key : string) : St (result (option monitor)) :=
  response ← rpc (OpGet ctx key) (fun c => clientv3.Get c ctx key);
  match response with
  | Err err => mret (Err err)
  | Ok response =>
      match clientv3.Kvs response with
      | kv :: _ =>
          let leaseID := mvccpb.Lease kv in
          match strconv.ParseInt (mvccpb.Value kv) with
          | Err err => mret (Err err)
          | Ok ttl =>
              mret (Ok (Some {| Monitor.key := mvccpb.Key kv;
                                Monitor.leaseID := leaseID;
                                Monitor.ttl := ttl |}))
          end
      | [] => mret (Ok None)
      end
  end.

(** The closure [failureFunc] of [RefreshMonitor]. *)
Definition failureFunc (key : string) (entity : Entity) (event : Event) : Callback :=
  fun m =>
    let m := log (OpLogInfo ("monitor timed out, for " +:+ key +:+ ", handling failure")) m in
    let '(f', err) := HandleFailure (failureHandler m) entity event in
    let m := log (OpHandleFailure entity event)
               {| failureHandler := f'; errorHandler := errorHandler m;
                  client := client m; trace := trace m |} in
    match err with
    | Some err =>
        log (OpHandleError err)
          {| failureHandler := failureHandler m;
             errorHandler := HandleError (errorHandler m) err;
             client := client m; trace := trace m |}
    | None => m
    end.

(** The closure [shutdownFunc]: [logger.Info] prints its operands one
    after the other, so the verb stays in the message. *)
Definition shutdownFunc (key : string) : Callback :=
  fun m => log (OpLogInfo ("shutting down monitor for %s" +:+ key)) m.

(** [watchMon]: subscribe, then start the goroutine. *)
Definition watchMon (ctx : Context) (key : string)
    (failureHandler shutdownHandler : Callback) : St unit :=
  _ ← rpc (OpWatch ctx key) (fun c => (clientv3.Watch c ctx key, tt));
  spawn {| w_ctx := ctx; w_key := key; w_failureHandler := failureHandler;
           w_shutdownHandler := shutdownHandler; w_state := Active |}.

(** [RefreshMonitor]; the result is the error returned, [None] for nil.
    [renew] is the body of the first [if], [create] what follows it. *)
Definition RefreshMonitor (ctx : Context) (name : string)
    (entity : Entity) (event : Event) (ttl : Z) : St (option error) :=
  let key := store.Build monitorKeyBuilder name in
  r ← getMonitor ctx key;
  match r with
  | Err err => mret (Some err)
  | Ok mon =>
      let renew (mon : monitor) : St (option error) :=
        kaerr ← rpc (OpKeepAliveOnce ctx (Monitor.leaseID mon))
                  (fun c => clientv3.KeepAliveOnce c ctx (Monitor.leaseID mon));
        mret (err_of kaerr) in
      let create : St (option error) :=
        lease ← rpc (OpGrant ctx ttl) (fun c => clientv3.Grant c ctx ttl);
        match lease with
        | Err err => mret (Some err)
        | Ok lease =>
            let mon := {| Monitor.key := key;
                          Monitor.leaseID := clientv3.ID lease;
                          Monitor.ttl := ttl |} in
            let value := strconv.Sprintf_d (Monitor.ttl mon) in
            r ← rpc (OpPut ctx key value (clientv3.ID lease))
                  (fun c => clientv3.Put c ctx key value (clientv3.ID lease));
            match r with
            | Err err => mret (Some err)
            | Ok _ =>
                _ ← watchMon ctx (Monitor.key mon)
                      (failureFunc key entity event) (shutdownFunc key);
                mret None
            end
        end in
      match mon with
      | Some mon => if bool_decide (Monitor.ttl mon = ttl) then renew mon else create
      | None => create
      end
  end.

(** *** The goroutine of [watchMon] *)

(** [for _, ev := range wresp.Events]: the state the goroutine is in
    after the events, [Active] when it did not return. *)
Fixpoint range_events (evs : list mvccpb.Event)
    (failureHandler shutdownHandler : Callback) (m : EtcdService)
    : TaskState * EtcdService :=
  match evs with
  | [] => (Active, m)
  | ev :: evs =>
      if bool_decide (mvccpb.Type_ ev = mvccpb.DELETE) then (Failed, failureHandler m)
      else if bool_decide (mvccpb.Type_ ev = mvccpb.PUT) then (Superseded, shutdownHandler m)
      else range_events evs failureHandler shutdownHandler m
  end.

Definition with_state (st : TaskState) (t : Watcher) : Watcher :=
  {| w_ctx := w_ctx t; w_key := w_key t; w_failureHandler := w_failureHandler t;
     w_shutdownHandler := w_shutdownHandler t; w_state := st |}.

(** One turn of [for wresp := range responseChan].  A goroutine that has
    returned reads nothing. *)
Definition recv (t : Watcher) (wresp : clientv3.WatchResponse) (m : EtcdService)
    : Watcher * EtcdService :=
  match w_state t with
  | Active =>
      let '(st, m') := range_events (clientv3.Events wresp)
                         (w_failureHandler t) (w_shutdownHandler t) m in
      (with_state st t, m')
  | _ => (t, m)
  end.

(** The channel is closed: the [range] loop of a reading goroutine ends. *)
Definition chan_closed (t : Watcher) : Watcher :=
  match w_state t with
  | Active => with_state Closed t
  | _ => t
  end.

(** The goroutine on a channel that carries [wresps] and is then closed. *)
Fixpoint watch_loop (wresps : list clientv3.WatchResponse) (t : Watcher)
    (m : EtcdService) : Watcher * EtcdService :=
  match wresps with
  | [] => (chan_closed t, m)
  | wresp :: wresps => let '(t', m') := recv t wresp m in watch_loop wresps t' m'
  end.

(** *** What happens to the process *)

(** The store sends [wresp] on the channel of goroutine [i]. *)
Definition deliver (i : nat) (wresp : clientv3.WatchResponse) (w : World) : World :=
  match tasks w !! i with
  | Some t =>
      let '(t', m') := recv t wresp (service w) in
      {| service := m'; tasks := <[i := t']> (tasks w) |}
  | None => w
  end.

(** [ctx] is done: it was canceled or timed out, or a context it
    derives from was.  The documentation of [Watch]: "If the context is
    canceled or timed out, returned WatchChan is closed".  The contexts
    that derive from [ctx] are done with it, each by a [cancel] of its
    own. *)
Definition cancel (ctx : Context) (w : World) : World :=
  {| service := service w;
     tasks := (fun t => if bool_decide (w_ctx t = ctx) then chan_closed t else t)
                <$> tasks w |}.

Inductive step : World -> World -> Prop :=
| step_refresh ctx name entity event ttl w :
    step w (RefreshMonitor ctx name entity event ttl w).2
| step_deliver i wresp w :
    step w (deliver i wresp w)
| step_cancel ctx w :
    step w (cancel ctx w).

(** Goroutine [i] still reads its channel after [ctx] is canceled. *)
Definition reads_after_cancel (ctx : Context) (i : nat) (w : World) : Prop :=
  w_state <$> tasks (cancel ctx w) !! i = Some Active.

(** The goroutine that a successful [RefreshMonitor] starts. *)
Definition new_watcher (ctx : Context) (key : string) (entity : Entity) (event : Event)
    : Watcher :=
  {| w_ctx := ctx; w_key := key;
     w_failureHandler := failureFunc key entity event;
     w_shutdownHandler := shutdownFunc key;
     w_state := Active |}.

(** The stored record, as [getMonitor] reads it, asks for a new lease:
    there is none, or its value is another ttl. *)
Definition stale (response : clientv3.GetResponse) (ttl : Z) : Prop :=
  match clientv3.Kvs response with
  | [] => True
  | kv :: _ => exists ttl0, strconv.ParseInt (mvccpb.Value kv) = Ok ttl0 /\ ttl0 <> ttl
  end.

(** The ways through [RefreshMonitor] from the process [w], each with
    the answers of the store that lead there, the error returned and the
    process left behind. *)
Inductive Outcome (ctx : Context) (name : string) (entity : Entity) (event : Event)
    (ttl : Z) (w : World) : option error -> World -> Prop :=
| GetFailed c1 e :
    clientv3.Get (client (service w)) ctx (store.Build monitorKeyBuilder name) = (c1, Err e) ->
    Outcome ctx name entity event ttl w (Some e)
      (called (OpGet ctx (store.Build monitorKeyBuilder name)) c1 w)
| ParseFailed c1 response kv rest e :
    clientv3.Get (client (service w)) ctx (store.Build monitorKeyBuilder name)
      = (c1, Ok response) ->
    clientv3.Kvs response = kv :: rest ->
    strconv.ParseInt (mvccpb.Value kv) = Err e ->
    Outcome ctx name entity event ttl w (Some e)
      (called (OpGet ctx (store.Build monitorKeyBuilder name)) c1 w)
| Renewed c1 response kv rest c2 r :
    clientv3.Get (client (service w)) ctx (store.Build monitorKeyBuilder name)
      = (c1, Ok response) ->
    clientv3.Kvs response = kv :: rest ->
    strconv.ParseInt (mvccpb.Value kv) = Ok ttl ->
    clientv3.KeepAliveOnce c1 ctx (mvccpb.Lease kv) = (c2, r) ->
    Outcome ctx name entity event ttl w (err_of r)
      (called (OpKeepAliveOnce ctx (mvccpb.Lease kv)) c2
         (called (OpGet ctx (store.Build monitorKeyBuilder name)) c1 w))
| GrantFailed c1 response c2 e :
    clientv3.Get (client (service w)) ctx (store.Build monitorKeyBuilder name)
      = (c1, Ok response) ->
    stale response ttl ->
    clientv3.Grant c1 ctx ttl = (c2, Err e) ->
    Outcome ctx name entity event ttl w (Some e)
      (called (OpGrant ctx ttl) c2
         (called (OpGet ctx (store.Build monitorKeyBuilder name)) c1 w))
| PutFailed c1 response c2 lease c3 e :
    clientv3.Get (client (service w)) ctx (store.Build monitorKeyBuilder name)
      = (c1, Ok response) ->
    stale response ttl ->
    clientv3.Grant c1 ctx ttl = (c2, Ok lease) ->
    clientv3.Put c2 ctx (store.Build monitorKeyBuilder name) (strconv.Sprintf_d ttl)
      (clientv3.ID lease) = (c3, Err e) ->
    Outcome ctx name entity event ttl w (Some e)
      (called (OpPut ctx (store.Build monitorKeyBuilder name) (strconv.Sprintf_d ttl)
                 (clientv3.ID lease)) c3
         (called (OpGrant ctx ttl) c2
            (called (OpGet ctx (store.Build monitorKeyBuilder name)) c1 w)))
| Created c1 response c2 lease c3 u :
    clientv3.Get (client (service w)) ctx (store.Build monitorKeyBuilder name)
      = (c1, Ok response) ->
    stale response ttl ->
    clientv3.Grant c1 ctx ttl = (c2, Ok lease) ->
    clientv3.Put c2 ctx (store.Build monitorKeyBuilder name) (strconv.Sprintf_d ttl)
      (clientv3.ID lease) = (c3, Ok u) ->
    Outcome ctx name entity event ttl w None
      {| service :=
           service
             (called (OpWatch ctx (store.Build monitorKeyBuilder name))
                (clientv3.Watch c3 ctx (store.Build monitorKeyBuilder name))
                (called (OpPut ctx (store.Build monitorKeyBuilder name)
                           (strconv.Sprintf_d ttl) (clientv3.ID lease)) c3
                   (called (OpGrant ctx ttl) c2
                      (called (OpGet ctx (store.Build monitorKeyBuilder name)) c1 w))));
         tasks := tasks w ++ [new_watcher ctx (store.Build monitorKeyBuilder name)
                                entity event] |}.

(** The key an operation names, if it names one. *)
Definition op_key (op : Op Entity Event) : option string :=
  match op with
  | OpGet _ k | OpPut _ k _ _ | OpDelete _ k | OpWatch _ k => Some k
  | _ => None
  end.

(** The context an operation on the store was called with. *)
Definition op_ctx (op : Op Entity Event) : option Context :=
  match op with
  | OpGet c _ | OpPut c _ _ _ | OpDelete c _ | OpGrant c _ | OpRevoke c _
  | OpKeepAliveOnce c _ | OpWatch c _ => Some c
  | _ => None
  end.

Definition is_revoke_or_delete (op : Op Entity Event) : bool :=
  match op with
  | OpDelete _ _ | OpRevoke _ _ => true
  | _ => false
  end.

End Service.

(** ** An in-memory store *)

Module memstore.

Inductive Rpc := RpcGet | RpcPut | RpcDelete | RpcGrant | RpcRevoke | RpcKeepAliveOnce.

#[global] Instance Rpc_eq_dec : EqDecision Rpc.
Proof. solve_decision. Defined.

(** Keys with their value and lease, the leases granted with their ttl,
    the subscriptions, and an outage: the call that fails and its error. *)
Record MemStore := {
  kvs : gmap string mvccpb.KeyValue;
  leases : gmap Z Z;
  nextLease : Z;
  watches : list (Context * string);
  outage : option (Rpc * error)
}.

Definition empty : MemStore :=
  {| kvs := ∅; leases := ∅; nextLease := 1; watches := []; outage := None |}.

Definition failing (r : Rpc) (e : error) (s : MemStore) : MemStore :=
  {| kvs := kvs s; leases := leases s; nextLease := nextLease s;
     watches := watches s; outage := Some (r, e) |}.

Definition down (r : Rpc) (s : MemStore) : option error :=
  match outage s with
  | Some (r', e) => if bool_decide (r' = r) then Some e else None
  | None => None
  end.

Definition ErrLeaseNotFound : error := StoreError "etcdserver: requested lease not found".

Definition get (s : MemStore) (_ : Context) (k : string)
    : MemStore * result clientv3.GetResponse :=
  match down RpcGet s with
  | Some e => (s, Err e)
  | None => (s, Ok {| clientv3.Kvs := option_list (kvs s !! k) |})
  end.

Definition put (s : MemStore) (_ : Context) (k v : string) (l : clientv3.LeaseID)
    : MemStore * result unit :=
  match down RpcPut s with
  | Some e => (s, Err e)
  | None =>
      if bool_decide (l = 0) || bool_decide (is_Some (leases s !! l)) then
        ({| kvs := <[k := {| mvccpb.Key := k; mvccpb.Value := v; mvccpb.Lease := l |}]> (kvs s);
            leases := leases s; nextLease := nextLease s;
            watches := watches s; outage := outage s |}, Ok tt)
      else (s, Err ErrLeaseNotFound)
  end.

Definition delete (s : MemStore) (_ : Context) (k : string) : MemStore * result unit :=
  match down RpcDelete s with
  | Some e => (s, Err e)
  | None =>
      ({| kvs := base.delete k (kvs s); leases := leases s; nextLease := nextLease s;
          watches := watches s; outage := outage s |}, Ok tt)
  end.

Definition grant (s : MemStore) (_ : Context) (ttl : Z)
    : MemStore * result clientv3.LeaseGrantResponse :=
  match down RpcGrant s with
  | Some e => (s, Err e)
  | None =>
      ({| kvs := kvs s; leases := <[nextLease s := ttl]> (leases s);
          nextLease := nextLease s + 1; watches := watches s; outage := outage s |},
       Ok {| clientv3.ID := nextLease s; clientv3.TTL := ttl |})
  end.

Definition revoke (s : MemStore) (_ : Context) (l : clientv3.LeaseID)
    : MemStore * result unit :=
  match down RpcRevoke s with
  | Some e => (s, Err e)
  | None =>
      match leases s !! l with
      | Some _ =>
          ({| kvs := filter (fun kv => mvccpb.Lease kv.2 ≠ l) (kvs s);
              leases := base.delete l (leases s); nextLease := nextLease s;
              watches := watches s; outage := outage s |}, Ok tt)
      | None => (s, Err ErrLeaseNotFound)
      end
  end.

Definition keepAliveOnce (s : MemStore) (_ : Context) (l : clientv3.LeaseID)
    : MemStore * result unit :=
  match down RpcKeepAliveOnce s with
  | Some e => (s, Err e)
  | None =>
      match leases s !! l with
      | Some _ => (s, Ok tt)
      | None => (s, Err ErrLeaseNotFound)
      end
  end.

Definition watch (s : MemStore) (ctx : Context) (k : string) : MemStore :=
  {| kvs := kvs s; leases := leases s; nextLease := nextLease s;
     watches := watches s ++ [(ctx, k)]; outage := outage s |}.

#[global] Instance MemStore_Client : clientv3.Client MemStore := {|
  clientv3.Get := get;
  clientv3.Put := put;
  clientv3.Delete := delete;
  clientv3.Grant := grant;
  clientv3.Revoke := revoke;
  clientv3.KeepAliveOnce := keepAliveOnce;
  clientv3.Watch := watch
|}.

(** A failure handler that answers what it is told to and keeps what it
    was called with; an error handler that keeps the errors it received. *)
Record Alerting := { answer : option error; handled : list (string * string) }.

#[global] Instance Alerting_FailureHandler : FailureHandler Alerting string string :=
  fun f entity event =>
    ({| answer := answer f; handled := handled f ++ [(entity, event)] |}, answer f).

Definition ErrorSink : Type := list error.

#[global] Instance ErrorSink_ErrorHandler : ErrorHandler ErrorSink :=
  fun sink err => (sink ++ [err])%list.

(** A process around a store, with no goroutine yet. *)
Definition boot (s : MemStore) (answer : option error)
    : World (Entity := string) (Event := string) (C := MemStore) (F := Alerting) (E := ErrorSink) :=
  {| service := NewEtcdService s {| answer := answer; handled := [] |} [];
     tasks := [] |}.

(** The empty store, and the process after the first refresh of
    [entity1] with a ttl of 30 seconds under the context 7. *)
Definition fresh : World := boot empty None.

Definition monitored : World :=
  (RefreshMonitor 7%nat "entity1" "e" "ev" 30 fresh).2.

(** The record of [entity1] in [monitored]. *)
Definition entity1_record : mvccpb.KeyValue :=
  {| mvccpb.Key := "monitors/entity1"; mvccpb.Value := "30"; mvccpb.Lease := 1 |}.

(** The error of a store that cannot be reached, and of a handler that
    cannot alert. *)
Definition ErrUnavailable : error := StoreError "etcdserver: request timed out".
Definition ErrPager : error := HandlerError "pager unreachable".

(** A response that carries one event of type [ty] on [entity1]'s key. *)
Definition event_on_entity1 (ty : Z) : clientv3.WatchResponse :=
  {| clientv3.Events :=
       [{| mvccpb.Type_ := ty;
           mvccpb.Kv := {| mvccpb.Key := "monitors/entity1"; mvccpb.Value := "";
                           mvccpb.Lease := 0 |} |}];
     clientv3.Canceled := false |}.

End memstore.

(** ** Accounts of a process *)

#[global] Instance TaskState_eq_dec : EqDecision TaskState.
Proof. solve_decision. Defined.

(** How many elements of [l] satisfy [p]. *)
Fixpoint count_if {A : Type} (p : A -> bool) (l : list A) : nat :=
  match l with
  | [] => 0%nat
  | x :: l => ((if p x then 1 else 0) + count_if p l)%nat
  end.

Section Accounting.

Context {Entity Event : Type}.
Context {C : Type} `{!clientv3.Client C}.
Context {F : Type} `{!FailureHandler F Entity Event}.
Context {E : Type} `{!ErrorHandler E}.

Definition is_watch (op : Op Entity Event) : bool :=
  match op with OpWatch _ _ => true | _ => false end.

Definition is_handle_failure (op : Op Entity Event) : bool :=
  match op with OpHandleFailure _ _ => true | _ => false end.

Definition is_handle_error (op : Op Entity Event) : bool :=
  match op with OpHandleError _ => true | _ => false end.

(** A call on the store, as opposed to a handler call or a log line. *)
Definition is_store_call (op : Op Entity Event) : bool :=
  match op_ctx op with Some _ => true | None => false end.

Definition in_state (st : TaskState)
    (t : Watcher (Entity := Entity) (Event := Event) (C := C) (F := F) (E := E)) : bool :=
  bool_decide (w_state t = st).

(** The goroutine closes over the two closures that [RefreshMonitor]
    builds for its key. *)
Definition from_refresh
    (t : Watcher (Entity := Entity) (Event := Event) (C := C) (F := F) (E := E)) : Prop :=
  exists entity event,
    w_failureHandler t = failureFunc (w_key t) entity event
    /\ w_shutdownHandler t = shutdownFunc (w_key t).

(** A process in which the service has not been used yet. *)
Definition pristine
    (w : World (Entity := Entity) (Event := Event) (C := C) (F := F) (E := E)) : Prop :=
  tasks w = [] /\ trace (service w) = [].

(** The event that makes the goroutine return. *)
Definition decisive (ev : mvccpb.Event) : bool :=
  bool_decide (mvccpb.Type_ ev = mvccpb.DELETE) || bool_decide (mvccpb.Type_ ev = mvccpb.PUT).

(** Where a goroutine ends on a channel that carries the events [evs]
    and is then closed. *)
Definition verdict (evs : list mvccpb.Event) : TaskState :=
  match List.find decisive evs with
  | Some ev => if bool_decide (mvccpb.Type_ ev = mvccpb.DELETE) then Failed else Superseded
  | None => Closed
  end.

(** The handler that a goroutine ending in [st] has called on [m]. *)
Definition handled_by (st : TaskState)
    (t : Watcher (Entity := Entity) (Event := Event) (C := C) (F := F) (E := E))
    (m : EtcdService (Entity := Entity) (Event := Event) (C := C) (F := F) (E := E))
    : EtcdService (Entity := Entity) (Event := Event) (C := C) (F := F) (E := E) :=
  match st with
  | Failed => w_failureHandler t m
  | Superseded => w_shutdownHandler t m
  | _ => m
  end.

(** The books of a process balance: one goroutine per [Watch], one call
    of the failure handler per goroutine that ended [Failed], no more
    calls of the error handler than of the failure handler, and every
    goroutine runs the closures of [RefreshMonitor]. *)
Definition balanced
    (w : World (Entity := Entity) (Event := Event) (C := C) (F := F) (E := E)) : Prop :=
  Forall from_refresh (tasks w)
  /\ length (tasks w) = count_if is_watch (trace (service w))
  /\ count_if is_handle_failure (trace (service w)) = count_if (in_state Failed) (tasks w)
  /\ (count_if is_handle_error (trace (service w))
      <= count_if is_handle_failure (trace (service w)))%nat.

End Accounting.

(** ** [remove-proxy-entity-id] of the command line *)

Module subcommands.

(** [types.Check] is declared outside the sources: the field the command
    writes, and all its other fields as one value. *)
Record Check {Rest : Type} := { ProxyEntityID : string; rest : Rest }.
Arguments Check : clear implicits.

(** What the command does to the outside: the calls on [cli.Client],
    [cmd.Help()] and a line on [cmd.OutOrStdout()]. *)
Inductive Act {Rest : Type} :=
| ActHelp
| ActFetchCheck (name : string)
| ActUpdateCheck (check : Check Rest)
| ActPrintln (line : string).
Arguments Act : clear implicits.

(** The two calls of [cli.Client] that the command makes. *)
Class APIClient (A Err Rest : Type) := {
  FetchCheck : A -> string -> A * (Check Rest + Err);
  UpdateCheck : A -> Check Rest -> A * option Err
}.

Section RemoveProxyEntityID.

Context {A Err Rest : Type} `{!APIClient A Err Rest}.

(** [errors.New] and [Check.Validate], both declared elsewhere. *)
Context (New : string -> Err) (Validate : Check Rest -> option Err).

(** The command: its client, and what it has done so far. *)
Record Cli := { api : A; acts : list (Act Rest) }.

(** The [RunE] of [RemoveProxyEntityIDCommand]. *)
Definition RunE (args : list string) (cli : Cli) : option Err * Cli :=
  if bool_decide (length args <> 1%nat) then
    (Some (New "invalid argument(s) received"),
     {| api := api cli; acts := acts cli ++ [ActHelp] |})
  else
    let '(a1, r) := FetchCheck (api cli) (default "" (args !! 0%nat)) in
    let cli1 := {| api := a1;
                   acts := acts cli ++ [ActFetchCheck (default "" (args !! 0%nat))] |} in
    match r with
    | inr err => (Some err, cli1)
    | inl check =>
        let check := {| ProxyEntityID := ""; rest := rest check |} in
        match Validate check with
        | Some err => (Some err, cli1)
        | None =>
            let '(a2, r) := UpdateCheck a1 check in
            let cli2 := {| api := a2; acts := acts cli1 ++ [ActUpdateCheck check] |} in
            match r with
            | Some err => (Some err, cli2)
            | None => (None, {| api := a2; acts := acts cli2 ++ [ActPrintln "OK"] |})
            end
        end
    end.

Definition is_update (a : Act Rest) : bool :=
  match a with ActUpdateCheck _ => true | _ => false end.

End RemoveProxyEntityID.

(** A server that keeps checks by name; it is [down] or not. *)
Record Server := { checks : gmap string (Check nat); down : bool }.

#[global] Instance Server_APIClient : APIClient Server string nat := {|
  FetchCheck := fun s name =>
    if down s then (s, inr "unavailable")
    else match checks s !! name with
         | Some c => (s, inl c)
         | None => (s, inr "not found")
         end;
  UpdateCheck := fun s c =>
    if down s then (s, Some "unavailable")
    else (s, None)
|}.

(** A server with one check, [check1], that has a proxy entity id. *)
Definition check1 : Check nat := {| ProxyEntityID := "proxy1"; rest := 7%nat |}.

Definition server1 : Server := {| checks := {[ "check1" := check1 ]}; down := false |}.

(** A validation that accepts every check. *)
Definition valid (c : Check nat) : option string := None.

End subcommands.

(** ** The request helpers of the controller tests *)

Module controllers.

Section Requests.

(** Context keys are compared with [==]; the values the helpers store are
    a string and a slice of roles. *)
Context {Key Role Body : Type} `{!EqDecision Key}.

Inductive Value :=
| StringValue (s : string)
| RolesValue (roles : list Role).

(** [context.Context]: the background, or a parent with one more value. *)
Inductive Ctx :=
| Background
| WithValue (parent : Ctx) (key : Key) (val : Value).

(** [ctx.Value(key)]: the innermost value under the key. *)
Fixpoint Value_of (c : Ctx) (k : Key) : option Value :=
  match c with
  | Background => None
  | WithValue parent key val => if decide (key = k) then Some val else Value_of parent k
  end.

Record Request := { Method : string; URL : string; Body_ : option Body; Context_ : Ctx }.

(** [r.WithContext(ctx)]: a copy of the request with the context changed. *)
Definition WithContext (r : Request) (c : Ctx) : Request :=
  {| Method := Method r; URL := URL r; Body_ := Body_ r; Context_ := c |}.

(** [types.OrganizationKey], [authorization.ContextRoleKey],
    [types.FixtureRole] and [http.NewRequest], all declared elsewhere. *)
Context (OrganizationKey ContextRoleKey : Key).
Context (FixtureRole : string -> string -> Role).
Context (NewRequest : string -> string -> option Body -> Request).

Definition requestWithOrganization (r : Request) (organization : string) : Request :=
  let context := WithValue (Context_ r) OrganizationKey (StringValue organization) in
  WithContext r context.

Definition requestWithFullAccess (r : Request) : Request :=
  let userRoles := [FixtureRole "test" "default"] in
  let context := WithValue (Context_ r) ContextRoleKey (RolesValue userRoles) in
  WithContext r context.

Definition requestWithDefaultContext (req : Request) : Request :=
  let req := requestWithOrganization req "default" in
  let req := requestWithFullAccess req in
  req.

(** [newRequest]: its three arguments are not used. *)
Definition newRequest (meth url : string) (body : option Body) : Request :=
  let req := NewRequest "DELETE" "/entities/entity1" None in
  let req := requestWithDefaultContext req in
  req.

End Requests.

(** [http.NewRequest] without its checks: a request with the method, URL
    and body given and the background context. *)
Definition plainRequest (meth url : string) (body : option string)
    : Request (Key := nat) (Role := string * string) (Body := string) :=
  {| Method := meth; URL := url; Body_ := body; Context_ := Background |}.

End controllers.

(** * Facts *)

(** ** Decimal strings *)

Section Decimal.

Import strconv.

Lemma byte_val_digit_byte d : 0 <= d <= 9 -> byte_val (digit_byte d) = 48 + d.
Proof.
  intros Hd.
  assert (Hcases : d = 0 \/ d = 1 \/ d = 2 \/ d = 3 \/ d = 4 \/ d = 5
                   \/ d = 6 \/ d = 7 \/ d = 8 \/ d = 9) by lia.
  repeat (destruct Hcases as [-> | Hcases]; [reflexivity |]).
  subst d. reflexivity.
Qed.

Lemma digit_byte_not_sign d :
  0 <= d <= 9 -> digit_byte d <> "+"%char /\ digit_byte d <> "-"%char.
Proof.
  intros Hd.
  assert (Hcases : d = 0 \/ d = 1 \/ d = 2 \/ d = 3 \/ d = 4 \/ d = 5
                   \/ d = 6 \/ d = 7 \/ d = 8 \/ d = 9) by lia.
  repeat (destruct Hcases as [-> | Hcases]; [split; discriminate |]).
  subst d. split; discriminate.
Qed.

(** Reading one digit after the value [n]. *)
Lemma ParseUint_loop_digit d rest n :
  0 <= d <= 9 -> 0 <= n -> n * 10 + d <= maxUint64 ->
  ParseUint_loop (String (digit_byte d) rest) n = ParseUint_loop rest (n * 10 + d).
Proof.
  intros Hd Hn Hmax. unfold maxUint64 in Hmax.
  cbn [ParseUint_loop]. rewrite byte_val_digit_byte by done.
  replace (48 + d - 48) with d by lia.
  assert (H1 : ((48 <=? 48 + d) && (48 + d <=? 57)) = true).
  { apply andb_true_iff. split; apply Z.leb_le; lia. }
  rewrite H1.
  assert (H2 : (maxUint64 / 10 + 1 <=? n) = false).
  { apply Z.leb_gt. change (maxUint64 / 10 + 1) with 1844674407370955162. lia. }
  rewrite H2.
  rewrite (Z.mod_small (n * 10)) by lia.
  rewrite (Z.mod_small (n * 10 + d)) by lia.
  assert (H3 : ((n * 10 + d <? n * 10) || (maxUint64 <? n * 10 + d)) = false).
  { apply orb_false_iff. split; apply Z.ltb_ge; unfold maxUint64; lia. }
  rewrite H3. reflexivity.
Qed.

(** Parsing the digits that [fmt_digits] writes in front of [buf] is
    parsing [buf] with the value [u] already read. *)
Lemma ParseUint_loop_fmt_digits fuel : forall u buf,
  0 <= u < 10 ^ Z.of_nat fuel -> u <= maxUint64 ->
  ParseUint_loop (fmt_digits fuel u buf) 0 = ParseUint_loop buf u.
Proof.
  induction fuel as [| fuel IH]; intros u buf Hu Hmax.
  - change (10 ^ Z.of_nat 0) with 1 in Hu. assert (u = 0) as -> by lia. reflexivity.
  - rewrite Nat2Z.inj_succ, Z.pow_succ_r in Hu by lia.
    cbn [fmt_digits]. destruct (10 <=? u) eqn:Hten.
    + apply Z.leb_le in Hten.
      assert (Hdiv : 0 <= u / 10 < 10 ^ Z.of_nat fuel).
      { split; [apply Z.div_pos; lia | apply Z.div_lt_upper_bound; lia]. }
      assert (Hle : u / 10 * 10 <= u) by (pose proof (Z.mul_div_le u 10); lia).
      assert (Hrem : 0 <= u - u / 10 * 10 <= 9).
      { pose proof (Z.mod_pos_bound u 10). pose proof (Z.div_mod u 10). lia. }
      rewrite IH by (unfold maxUint64 in *; lia).
      rewrite ParseUint_loop_digit by (unfold maxUint64 in *; lia).
      f_equal. lia.
    + apply Z.leb_gt in Hten.
      rewrite ParseUint_loop_digit by (unfold maxUint64 in *; lia).
      f_equal.
Qed.

Lemma fmt_digits_head fuel : forall u buf,
  0 <= u ->
  exists d rest, 0 <= d <= 9 /\ fmt_digits (S fuel) u buf = String (digit_byte d) rest.
Proof.
  induction fuel as [| fuel IH]; intros u buf Hu.
  - cbn [fmt_digits]. destruct (10 <=? u) eqn:Hten.
    + apply Z.leb_le in Hten. exists (u - u / 10 * 10), buf. split; [| done].
      pose proof (Z.mod_pos_bound u 10). pose proof (Z.div_mod u 10). lia.
    + apply Z.leb_gt in Hten. exists u, buf. split; [lia | done].
  - change (fmt_digits (S (S fuel)) u buf)
      with (if 10 <=? u
            then fmt_digits (S fuel) (u / 10) (String (digit_byte (u - u / 10 * 10)) buf)
            else String (digit_byte u) buf).
    destruct (10 <=? u) eqn:Hten.
    + apply IH. apply Z.div_pos; lia.
    + apply Z.leb_gt in Hten. exists u, buf. split; [lia | done].
Qed.

(** [ParseUint] reads back the magnitude that [fmt] printed. *)
Lemma ParseUint_fmt_digits u :
  0 <= u <= maxUint64 -> ParseUint (fmt_digits 20 u "") = (u, None).
Proof.
  intros Hu.
  destruct (fmt_digits_head 19 u "") as (d & rest & _ & Hhead); [lia |].
  unfold ParseUint. rewrite Hhead, <- Hhead.
  rewrite ParseUint_loop_fmt_digits; [reflexivity | | lia].
  unfold maxUint64 in Hu. split; [lia |].
  change (10 ^ Z.of_nat 20) with 100000000000000000000. lia.
Qed.

(** Printing an int64 with [%d] and parsing it with [ParseInt] gives the
    int64 back. *)
Lemma ParseInt_Sprintf_d a : is_int64 a -> ParseInt (Sprintf_d a) = Ok a.
Proof.
  unfold is_int64, minInt64, maxInt64. intros Ha. unfold Sprintf_d.
  destruct (a <? 0) eqn:Hneg.
  - apply Z.ltb_lt in Hneg.
    rewrite Z.mod_small by lia.
    unfold ParseInt.
    rewrite (bool_decide_eq_false_2 ("-"%char = "+"%char)) by discriminate.
    rewrite (bool_decide_eq_true_2 ("-"%char = "-"%char)) by reflexivity.
    rewrite ParseUint_fmt_digits by (unfold maxUint64; lia).
    cbn [negb andb].
    assert (Hcut : (2 ^ 63 <? - a) = false) by (apply Z.ltb_ge; lia).
    rewrite Hcut. f_equal. lia.
  - apply Z.ltb_ge in Hneg.
    destruct (fmt_digits_head 19 a "") as (d & rest & Hd & Hhead); [lia |].
    destruct (digit_byte_not_sign d Hd) as [Hplus Hminus].
    pose proof (ParseUint_fmt_digits a) as Hparse.
    rewrite Hhead in Hparse |- *.
    unfold ParseInt.
    rewrite (bool_decide_eq_false_2 _ Hplus), (bool_decide_eq_false_2 _ Hminus).
    rewrite Hparse by (unfold maxUint64; lia).
    cbn [negb andb].
    assert (Hcut : (2 ^ 63 <=? a) = false) by (apply Z.leb_gt; lia).
    rewrite Hcut. reflexivity.
Qed.

End Decimal.

(** ** The paths of [RefreshMonitor] *)

Section Paths.

Context {Entity Event : Type}.
Context {C : Type} `{!clientv3.Client C}.
Context {F : Type} `{!FailureHandler F Entity Event}.
Context {E : Type} `{!ErrorHandler E}.

Implicit Types (w : World (Entity := Entity) (Event := Event) (C := C) (F := F) (E := E)).
Implicit Types (ctx : Context) (name : string) (entity : Entity) (event : Event) (ttl : Z).

Local Abbreviation keyOf name := (store.Build monitorKeyBuilder name).

Ltac run_refresh :=
  unfold RefreshMonitor, getMonitor, watchMon, spawn, rpc, mbind, St_bind, mret, St_ret.

Ltac run_step H :=
  cbn [called service with_client client log Monitor.ttl Monitor.key Monitor.leaseID];
  rewrite H; cbv beta iota zeta.

(** Past a read that finds no record, or one with another ttl. *)
Ltac run_stale Hget Hstale :=
  let ttl0 := fresh "ttl0" in
  let Hparse := fresh "Hparse" in
  let Hne := fresh "Hne" in
  unfold stale in Hstale; run_refresh; run_step Hget;
  match goal with
  | |- context [clientv3.Kvs ?response] =>
      destruct (clientv3.Kvs response);
      [| destruct Hstale as (ttl0 & Hparse & Hne); rewrite Hparse;
         cbv beta iota zeta; cbn [Monitor.ttl];
         rewrite (bool_decide_eq_false_2 _ Hne)]
  end.

Lemma RefreshMonitor_get_failed ctx name entity event ttl w c1 e :
  clientv3.Get (client (service w)) ctx (keyOf name) = (c1, Err e) ->
  RefreshMonitor ctx name entity event ttl w
  = (Some e, called (OpGet ctx (keyOf name)) c1 w).
Proof. intros Hget. run_refresh. run_step Hget. reflexivity. Qed.

Lemma RefreshMonitor_parse_failed ctx name entity event ttl w c1 response kv rest e :
  clientv3.Get (client (service w)) ctx (keyOf name) = (c1, Ok response) ->
  clientv3.Kvs response = kv :: rest ->
  strconv.ParseInt (mvccpb.Value kv) = Err e ->
  RefreshMonitor ctx name entity event ttl w
  = (Some e, called (OpGet ctx (keyOf name)) c1 w).
Proof.
  intros Hget Hkvs Hparse. run_refresh.
  run_step Hget. run_step Hkvs. run_step Hparse. reflexivity.
Qed.

Lemma RefreshMonitor_renewed ctx name entity event ttl w c1 response kv rest c2 r :
  clientv3.Get (client (service w)) ctx (keyOf name) = (c1, Ok response) ->
  clientv3.Kvs response = kv :: rest ->
  strconv.ParseInt (mvccpb.Value kv) = Ok ttl ->
  clientv3.KeepAliveOnce c1 ctx (mvccpb.Lease kv) = (c2, r) ->
  RefreshMonitor ctx name entity event ttl w
  = (err_of r,
     called (OpKeepAliveOnce ctx (mvccpb.Lease kv)) c2
       (called (OpGet ctx (keyOf name)) c1 w)).
Proof.
  intros Hget Hkvs Hparse Hka. run_refresh.
  run_step Hget. run_step Hkvs. run_step Hparse.
  cbn [Monitor.ttl Monitor.leaseID]. rewrite bool_decide_eq_true_2 by reflexivity.
  run_step Hka. reflexivity.
Qed.

Lemma RefreshMonitor_grant_failed ctx name entity event ttl w c1 response c2 e :
  clientv3.Get (client (service w)) ctx (keyOf name) = (c1, Ok response) ->
  stale response ttl ->
  clientv3.Grant c1 ctx ttl = (c2, Err e) ->
  RefreshMonitor ctx name entity event ttl w
  = (Some e, called (OpGrant ctx ttl) c2 (called (OpGet ctx (keyOf name)) c1 w)).
Proof.
  intros Hget Hstale Hgrant.
  run_stale Hget Hstale; run_step Hgrant; reflexivity.
Qed.

Lemma RefreshMonitor_put_failed ctx name entity event ttl w c1 response c2 lease c3 e :
  clientv3.Get (client (service w)) ctx (keyOf name) = (c1, Ok response) ->
  stale response ttl ->
  clientv3.Grant c1 ctx ttl = (c2, Ok lease) ->
  clientv3.Put c2 ctx (keyOf name) (strconv.Sprintf_d ttl) (clientv3.ID lease)
    = (c3, Err e) ->
  RefreshMonitor ctx name entity event ttl w
  = (Some e,
     called (OpPut ctx (keyOf name) (strconv.Sprintf_d ttl) (clientv3.ID lease)) c3
       (called (OpGrant ctx ttl) c2 (called (OpGet ctx (keyOf name)) c1 w))).
Proof.
  intros Hget Hstale Hgrant Hput.
  run_stale Hget Hstale; run_step Hgrant; run_step Hput; reflexivity.
Qed.

Lemma RefreshMonitor_created ctx name entity event ttl w c1 response c2 lease c3 u :
  clientv3.Get (client (service w)) ctx (keyOf name) = (c1, Ok response) ->
  stale response ttl ->
  clientv3.Grant c1 ctx ttl = (c2, Ok lease) ->
  clientv3.Put c2 ctx (keyOf name) (strconv.Sprintf_d ttl) (clientv3.ID lease)
    = (c3, Ok u) ->
  RefreshMonitor ctx name entity event ttl w
  = (None,
     {| service :=
          service
            (called (OpWatch ctx (keyOf name)) (clientv3.Watch c3 ctx (keyOf name))
               (called (OpPut ctx (keyOf name) (strconv.Sprintf_d ttl)
                          (clientv3.ID lease)) c3
                  (called (OpGrant ctx ttl) c2 (called (OpGet ctx (keyOf name)) c1 w))));
        tasks := tasks w ++ [new_watcher ctx (keyOf name) entity event] |}).
Proof.
  intros Hget Hstale Hgrant Hput.
  run_stale Hget Hstale; run_step Hgrant; run_step Hput; reflexivity.
Qed.

(** Every call goes one of the six ways. *)
Lemma RefreshMonitor_outcome ctx name entity event ttl w :
  Outcome ctx name entity event ttl w
    (RefreshMonitor ctx name entity event ttl w).1
    (RefreshMonitor ctx name entity event ttl w).2.
Proof.
  destruct (clientv3.Get (client (service w)) ctx (keyOf name))
    as [c1 [response | e]] eqn:Hget.
  2: { rewrite (RefreshMonitor_get_failed _ _ _ _ _ _ _ _ Hget). by eapply GetFailed. }
  assert (Hcases :
    stale response ttl
    \/ (exists kv rest e, clientv3.Kvs response = kv :: rest
          /\ strconv.ParseInt (mvccpb.Value kv) = Err e)
    \/ (exists kv rest, clientv3.Kvs response = kv :: rest
          /\ strconv.ParseInt (mvccpb.Value kv) = Ok ttl)).
  { unfold stale. destruct (clientv3.Kvs response) as [| kv rest]; [by left |].
    destruct (strconv.ParseInt (mvccpb.Value kv)) as [ttl0 | e] eqn:Hparse.
    - destruct (decide (ttl0 = ttl)) as [-> | Hne]; [right; right | left]; eauto.
    - right; left; eauto. }
  destruct Hcases as [Hstale | [(kv & rest & e & Hkvs & Hparse) | (kv & rest & Hkvs & Hparse)]].
  - destruct (clientv3.Grant c1 ctx ttl) as [c2 [lease | e]] eqn:Hgrant.
    2: { rewrite (RefreshMonitor_grant_failed _ _ _ _ _ _ _ _ _ _ Hget Hstale Hgrant).
         by eapply GrantFailed. }
    destruct (clientv3.Put c2 ctx (keyOf name) (strconv.Sprintf_d ttl) (clientv3.ID lease))
      as [c3 [u | e]] eqn:Hput.
    + rewrite (RefreshMonitor_created _ _ _ _ _ _ _ _ _ _ _ _ Hget Hstale Hgrant Hput).
      by eapply Created.
    + rewrite (RefreshMonitor_put_failed _ _ _ _ _ _ _ _ _ _ _ _ Hget Hstale Hgrant Hput).
      by eapply PutFailed.
  - rewrite (RefreshMonitor_parse_failed _ _ _ _ _ _ _ _ _ _ _ Hget Hkvs Hparse).
    by eapply ParseFailed.
  - destruct (clientv3.KeepAliveOnce c1 ctx (mvccpb.Lease kv)) as [c2 r] eqn:Hka.
    rewrite (RefreshMonitor_renewed _ _ _ _ _ _ _ _ _ _ _ _ Hget Hkvs Hparse Hka).
    by eapply Renewed.
Qed.

(** The trace only grows, by the calls of the path taken. *)
Lemma trace_called (op : Op Entity Event) (c : C) w :
  trace (service (called op c w)) = trace (service w) ++ [op].
Proof. reflexivity. Qed.

Lemma client_called (op : Op Entity Event) (c : C) w :
  client (service (called op c w)) = c.
Proof. reflexivity. Qed.

Lemma tasks_called (op : Op Entity Event) (c : C) w :
  tasks (called op c w) = tasks w.
Proof. reflexivity. Qed.

End Paths.

(** ** The goroutine *)

Section Goroutine.

Context {Entity Event : Type}.
Context {C : Type} `{!clientv3.Client C}.
Context {F : Type} `{!FailureHandler F Entity Event}.
Context {E : Type} `{!ErrorHandler E}.

Implicit Types (w : World (Entity := Entity) (Event := Event) (C := C) (F := F) (E := E)).
Implicit Types (m : EtcdService (Entity := Entity) (Event := Event) (C := C) (F := F) (E := E)).
Implicit Types (t : Watcher (Entity := Entity) (Event := Event) (C := C) (F := F) (E := E)).

(** An event the goroutine passes over: neither DELETE nor PUT. *)
Local Abbreviation ignored :=
  (fun ev : mvccpb.Event =>
     mvccpb.Type_ ev <> mvccpb.DELETE /\ mvccpb.Type_ ev <> mvccpb.PUT).

Lemma range_events_ignored evs fh sh m :
  Forall ignored evs -> range_events evs fh sh m = (Active, m).
Proof.
  induction 1 as [| ev evs [Hd Hp] _ IH]; [reflexivity |].
  cbn [range_events]. by rewrite !bool_decide_eq_false_2.
Qed.

Lemma range_events_delete pre ev post fh sh m :
  Forall ignored pre -> mvccpb.Type_ ev = mvccpb.DELETE ->
  range_events (pre ++ ev :: post) fh sh m = (Failed, fh m).
Proof.
  intros Hpre Hev. induction Hpre as [| ev0 pre [Hd Hp] _ IH].
  - cbn [app range_events]. by rewrite bool_decide_eq_true_2.
  - cbn [app range_events]. by rewrite !bool_decide_eq_false_2.
Qed.

Lemma range_events_put pre ev post fh sh m :
  Forall ignored pre -> mvccpb.Type_ ev = mvccpb.PUT ->
  range_events (pre ++ ev :: post) fh sh m = (Superseded, sh m).
Proof.
  intros Hpre Hev. induction Hpre as [| ev0 pre [Hd Hp] _ IH].
  - cbn [app range_events]. rewrite bool_decide_eq_false_2.
    + by rewrite bool_decide_eq_true_2.
    + rewrite Hev. discriminate.
  - cbn [app range_events]. by rewrite !bool_decide_eq_false_2.
Qed.

(** The inner loop calls one handler once, or none. *)
Lemma range_events_once evs fh sh m :
  range_events evs fh sh m = (Active, m)
  \/ range_events evs fh sh m = (Failed, fh m)
  \/ range_events evs fh sh m = (Superseded, sh m).
Proof.
  induction evs as [| ev evs IH]; [by left |].
  cbn [range_events]. repeat case_bool_decide; auto.
Qed.

Lemma recv_returned t wresp m : w_state t <> Active -> recv t wresp m = (t, m).
Proof. unfold recv. by destruct (w_state t). Qed.

Lemma chan_closed_returned t : w_state t <> Active -> chan_closed t = t.
Proof. unfold chan_closed. by destruct (w_state t). Qed.

Lemma watch_loop_returned wresps t m :
  w_state t <> Active -> watch_loop wresps t m = (t, m).
Proof.
  intros Hst. induction wresps as [| wresp wresps IH]; cbn [watch_loop].
  - by rewrite chan_closed_returned.
  - by rewrite recv_returned.
Qed.

(** Over its whole life a goroutine calls one handler once, or none:
    it ends failed, superseded, or closed with the service untouched. *)
Lemma watch_loop_once wresps : forall t m,
  w_state t = Active ->
  exists st m', watch_loop wresps t m = (with_state st t, m')
    /\ ((st = Failed /\ m' = w_failureHandler t m)
        \/ (st = Superseded /\ m' = w_shutdownHandler t m)
        \/ (st = Closed /\ m' = m)).
Proof.
  induction wresps as [| wresp wresps IH]; intros t m Hact; cbn [watch_loop].
  - exists Closed, m. unfold chan_closed. rewrite Hact. auto.
  - unfold recv. rewrite Hact.
    destruct (range_events_once (clientv3.Events wresp)
                (w_failureHandler t) (w_shutdownHandler t) m) as [Hr | [Hr | Hr]];
      rewrite Hr.
    + destruct (IH (with_state Active t) m eq_refl) as (st & m' & Hloop & Hcases).
      exists st, m'. split; [exact Hloop | exact Hcases].
    + rewrite watch_loop_returned by discriminate. exists Failed. eauto.
    + rewrite watch_loop_returned by discriminate. exists Superseded. eauto 6.
Qed.

(** A goroutine that has returned sees nothing of what is sent later. *)
Lemma deliver_returned i wresp w t :
  tasks w !! i = Some t -> w_state t <> Active -> deliver i wresp w = w.
Proof.
  intros Hi Hst. unfold deliver. rewrite Hi, recv_returned by done.
  rewrite list_insert_id by done. by destruct w.
Qed.

End Goroutine.

(** ** The process *)

Section Process.

Context {Entity Event : Type}.
Context {C : Type} `{!clientv3.Client C}.
Context {F : Type} `{!FailureHandler F Entity Event}.
Context {E : Type} `{!ErrorHandler E}.

Implicit Types (w : World (Entity := Entity) (Event := Event) (C := C) (F := F) (E := E)).
Implicit Types (t : Watcher (Entity := Entity) (Event := Event) (C := C) (F := F) (E := E)).

(** A call starts no goroutine, or the one of [new_watcher]. *)
Lemma RefreshMonitor_tasks ctx name entity event ttl w :
  tasks (RefreshMonitor ctx name entity event ttl w).2 = tasks w
  \/ (RefreshMonitor ctx name entity event ttl w).1 = None
     /\ tasks (RefreshMonitor ctx name entity event ttl w).2
        = tasks w ++ [new_watcher ctx (store.Build monitorKeyBuilder name) entity event].
Proof.
  destruct (RefreshMonitor_outcome ctx name entity event ttl w); auto.
Qed.

Lemma tasks_cancel ctx w :
  tasks (cancel ctx w)
  = (fun t => if bool_decide (w_ctx t = ctx) then chan_closed t else t) <$> tasks w.
Proof. reflexivity. Qed.

Lemma step_keeps_returned w w' :
  step w w' ->
  forall i t, tasks w !! i = Some t -> w_state t <> Active -> tasks w' !! i = Some t.
Proof.
  intros Hstep i t Hi Hst. destruct Hstep as [ctx name entity event ttl w | j wresp w | ctx w].
  - destruct (RefreshMonitor_tasks ctx name entity event ttl w) as [-> | [_ ->]]; [done |].
    by apply lookup_app_l_Some.
  - unfold deliver. destruct (tasks w !! j) as [tj |] eqn:Hj; [| done].
    destruct (decide (j = i)) as [-> | Hne].
    + assert (tj = t) as -> by congruence.
      rewrite recv_returned by done. cbn [tasks]. by rewrite list_insert_id.
    + destruct (recv tj wresp (service w)) as [tj' m']. cbn [tasks].
      by rewrite list_lookup_insert_ne.
  - rewrite tasks_cancel, list_lookup_fmap, Hi. cbn [fmap option_fmap option_map].
    case_bool_decide; [| done]. by rewrite chan_closed_returned.
Qed.

(** Whatever happens to the process, a goroutine that has returned stays
    as it is. *)
Lemma steps_keep_returned w w' :
  rtc step w w' ->
  forall i t, tasks w !! i = Some t -> w_state t <> Active -> tasks w' !! i = Some t.
Proof.
  induction 1 as [| w1 w2 w3 Hstep _ IH]; [done |].
  intros i t Hi Hst. apply IH; [| done]. by eapply step_keeps_returned.
Qed.

End Process.

(** ** The claims about [RefreshMonitor] *)

Section Refresh.

Context {Entity Event : Type}.
Context {C : Type} `{!clientv3.Client C}.
Context {F : Type} `{!FailureHandler F Entity Event}.
Context {E : Type} `{!ErrorHandler E}.

Implicit Types (w : World (Entity := Entity) (Event := Event) (C := C) (F := F) (E := E)).
Implicit Types (m : EtcdService (Entity := Entity) (Event := Event) (C := C) (F := F) (E := E)).
Implicit Types (t : Watcher (Entity := Entity) (Event := Event) (C := C) (F := F) (E := E)).
Implicit Types (ctx : Context) (name : string) (entity : Entity) (event : Event) (ttl : Z).

Local Abbreviation keyOf name := (store.Build monitorKeyBuilder name).

(** No record, or a record with another ttl: that is [stale]. *)
Lemma stale_intro (response : clientv3.GetResponse) ttl :
  clientv3.Kvs response = []
  \/ (exists kv rest ttl0, clientv3.Kvs response = kv :: rest
        /\ strconv.ParseInt (mvccpb.Value kv) = Ok ttl0 /\ ttl0 <> ttl) ->
  stale response ttl.
Proof.
  unfold stale. intros [-> | (kv & rest & ttl0 & -> & Hparse & Hne)]; eauto.
Qed.

Ltac traces :=
  cbn [called service with_client log trace client tasks];
  rewrite <- ?app_assoc; cbn [app].

(** C1: when the read returns a record whose value parses to the ttl
    asked for, [RefreshMonitor] sends one [KeepAliveOnce] on the lease of
    that record and returns its error; it grants nothing, puts nothing
    and starts no goroutine. *)
Theorem C1_renew_on_same_ttl ctx name entity event ttl w c1 response kv rest c2 r :
  clientv3.Get (client (service w)) ctx (store.Build monitorKeyBuilder name)
    = (c1, Ok response) ->
  clientv3.Kvs response = kv :: rest ->
  strconv.ParseInt (mvccpb.Value kv) = Ok ttl ->
  clientv3.KeepAliveOnce c1 ctx (mvccpb.Lease kv) = (c2, r) ->
  (RefreshMonitor ctx name entity event ttl w).1 = err_of r
  /\ trace (service (RefreshMonitor ctx name entity event ttl w).2)
     = trace (service w)
       ++ [OpGet ctx (store.Build monitorKeyBuilder name);
           OpKeepAliveOnce ctx (mvccpb.Lease kv)]
  /\ client (service (RefreshMonitor ctx name entity event ttl w).2) = c2
  /\ tasks (RefreshMonitor ctx name entity event ttl w).2 = tasks w.
Proof.
  intros Hget Hkvs Hparse Hka.
  rewrite (RefreshMonitor_renewed _ _ _ _ _ _ _ _ _ _ _ _ Hget Hkvs Hparse Hka).
  cbn [fst snd]. traces. auto.
Qed.

(** C2: when the read succeeds and returns no record (then [getMonitor]
    gives no monitor and no error), or a record whose value parses to
    another ttl, [RefreshMonitor] calls [Grant] with the ttl; when the
    grant succeeds it puts the key with the decimal string of the ttl
    under the new lease; when the put succeeds it subscribes to the key,
    starts the goroutine and returns nil. *)
Theorem C2_create_on_absent_or_changed_ttl ctx name entity event ttl w c1 response :
  clientv3.Get (client (service w)) ctx (store.Build monitorKeyBuilder name)
    = (c1, Ok response) ->
  clientv3.Kvs response = []
  \/ (exists kv rest ttl0, clientv3.Kvs response = kv :: rest
        /\ strconv.ParseInt (mvccpb.Value kv) = Ok ttl0 /\ ttl0 <> ttl) ->
  (clientv3.Kvs response = [] ->
     (getMonitor ctx (store.Build monitorKeyBuilder name) w).1 = Ok None)
  /\ (exists ops,
        trace (service (RefreshMonitor ctx name entity event ttl w).2)
        = trace (service w)
          ++ OpGet ctx (store.Build monitorKeyBuilder name) :: OpGrant ctx ttl :: ops)
  /\ (forall c2 lease c3 u,
        clientv3.Grant c1 ctx ttl = (c2, Ok lease) ->
        clientv3.Put c2 ctx (store.Build monitorKeyBuilder name)
          (strconv.Sprintf_d ttl) (clientv3.ID lease) = (c3, Ok u) ->
        (RefreshMonitor ctx name entity event ttl w).1 = None
        /\ trace (service (RefreshMonitor ctx name entity event ttl w).2)
           = trace (service w)
             ++ [OpGet ctx (store.Build monitorKeyBuilder name);
                 OpGrant ctx ttl;
                 OpPut ctx (store.Build monitorKeyBuilder name)
                   (strconv.Sprintf_d ttl) (clientv3.ID lease);
                 OpWatch ctx (store.Build monitorKeyBuilder name)]
        /\ client (service (RefreshMonitor ctx name entity event ttl w).2)
           = clientv3.Watch c3 ctx (store.Build monitorKeyBuilder name)
        /\ tasks (RefreshMonitor ctx name entity event ttl w).2
           = tasks w
             ++ [new_watcher ctx (store.Build monitorKeyBuilder name) entity event]).
Proof.
  intros Hget Hstale%stale_intro. split; [| split].
  - intros Hkvs. unfold getMonitor, rpc, mbind, St_bind, mret, St_ret.
    rewrite Hget. cbv beta iota zeta. by rewrite Hkvs.
  - destruct (clientv3.Grant c1 ctx ttl) as [c2 [lease | e]] eqn:Hgrant.
    + destruct (clientv3.Put c2 ctx (keyOf name) (strconv.Sprintf_d ttl) (clientv3.ID lease))
        as [c3 [u | e]] eqn:Hput.
      * rewrite (RefreshMonitor_created _ _ _ _ _ _ _ _ _ _ _ _ Hget Hstale Hgrant Hput).
        cbn [snd]. traces. eauto.
      * rewrite (RefreshMonitor_put_failed _ _ _ _ _ _ _ _ _ _ _ _ Hget Hstale Hgrant Hput).
        cbn [snd]. traces. eauto.
    + rewrite (RefreshMonitor_grant_failed _ _ _ _ _ _ _ _ _ _ Hget Hstale Hgrant).
      cbn [snd]. traces. eauto.
  - intros c2 lease c3 u Hgrant Hput.
    rewrite (RefreshMonitor_created _ _ _ _ _ _ _ _ _ _ _ _ Hget Hstale Hgrant Hput).
    cbn [fst snd]. traces. auto.
Qed.

(** C4: an error of [Get], [Grant], [Put] or [KeepAliveOnce] is what
    [RefreshMonitor] returns, as it is; so is the error of [ParseInt] on a
    stored value that is no integer.  In each case the failed call is the
    last one made, and no goroutine is started. *)
Theorem C4_errors_returned_and_abort ctx name entity event ttl w :
  (forall c1 e,
     clientv3.Get (client (service w)) ctx (store.Build monitorKeyBuilder name)
       = (c1, Err e) ->
     (RefreshMonitor ctx name entity event ttl w).1 = Some e
     /\ trace (service (RefreshMonitor ctx name entity event ttl w).2)
        = trace (service w) ++ [OpGet ctx (store.Build monitorKeyBuilder name)]
     /\ tasks (RefreshMonitor ctx name entity event ttl w).2 = tasks w)
  /\ (forall c1 response kv rest e,
        clientv3.Get (client (service w)) ctx (store.Build monitorKeyBuilder name)
          = (c1, Ok response) ->
        clientv3.Kvs response = kv :: rest ->
        strconv.ParseInt (mvccpb.Value kv) = Err e ->
        (getMonitor ctx (store.Build monitorKeyBuilder name) w).1 = Err e
        /\ (RefreshMonitor ctx name entity event ttl w).1 = Some e
        /\ trace (service (RefreshMonitor ctx name entity event ttl w).2)
           = trace (service w) ++ [OpGet ctx (store.Build monitorKeyBuilder name)]
        /\ tasks (RefreshMonitor ctx name entity event ttl w).2 = tasks w)
  /\ (forall c1 response kv rest c2 e,
        clientv3.Get (client (service w)) ctx (store.Build monitorKeyBuilder name)
          = (c1, Ok response) ->
        clientv3.Kvs response = kv :: rest ->
        strconv.ParseInt (mvccpb.Value kv) = Ok ttl ->
        clientv3.KeepAliveOnce c1 ctx (mvccpb.Lease kv) = (c2, Err e) ->
        (RefreshMonitor ctx name entity event ttl w).1 = Some e
        /\ trace (service (RefreshMonitor ctx name entity event ttl w).2)
           = trace (service w)
             ++ [OpGet ctx (store.Build monitorKeyBuilder name);
                 OpKeepAliveOnce ctx (mvccpb.Lease kv)]
        /\ tasks (RefreshMonitor ctx name entity event ttl w).2 = tasks w)
  /\ (forall c1 response c2 e,
        clientv3.Get (client (service w)) ctx (store.Build monitorKeyBuilder name)
          = (c1, Ok response) ->
        stale response ttl ->
        clientv3.Grant c1 ctx ttl = (c2, Err e) ->
        (RefreshMonitor ctx name entity event ttl w).1 = Some e
        /\ trace (service (RefreshMonitor ctx name entity event ttl w).2)
           = trace (service w)
             ++ [OpGet ctx (store.Build monitorKeyBuilder name); OpGrant ctx ttl]
        /\ tasks (RefreshMonitor ctx name entity event ttl w).2 = tasks w)
  /\ (forall c1 response c2 lease c3 e,
        clientv3.Get (client (service w)) ctx (store.Build monitorKeyBuilder name)
          = (c1, Ok response) ->
        stale response ttl ->
        clientv3.Grant c1 ctx ttl = (c2, Ok lease) ->
        clientv3.Put c2 ctx (store.Build monitorKeyBuilder name)
          (strconv.Sprintf_d ttl) (clientv3.ID lease) = (c3, Err e) ->
        (RefreshMonitor ctx name entity event ttl w).1 = Some e
        /\ trace (service (RefreshMonitor ctx name entity event ttl w).2)
           = trace (service w)
             ++ [OpGet ctx (store.Build monitorKeyBuilder name);
                 OpGrant ctx ttl;
                 OpPut ctx (store.Build monitorKeyBuilder name)
                   (strconv.Sprintf_d ttl) (clientv3.ID lease)]
        /\ tasks (RefreshMonitor ctx name entity event ttl w).2 = tasks w).
Proof.
  repeat split.
  all: intros.
  all: try match goal with
    | |- (getMonitor _ _ _).1 = _ =>
        unfold getMonitor, rpc, mbind, St_bind, mret, St_ret;
        repeat match goal with H : _ = _ |- _ => rewrite H; cbv beta iota zeta end;
        reflexivity
    end.
  all: first
    [ erewrite RefreshMonitor_get_failed by eassumption
    | erewrite RefreshMonitor_parse_failed by eassumption
    | erewrite RefreshMonitor_renewed by eassumption
    | erewrite RefreshMonitor_grant_failed by eassumption
    | erewrite RefreshMonitor_put_failed by eassumption ].
  all: cbn [fst snd err_of]; traces; reflexivity.
Qed.

End Refresh.

(** ** The claims about the goroutine, the handlers and the calls made *)

Section Watching.

Context {Entity Event : Type}.
Context {C : Type} `{!clientv3.Client C}.
Context {F : Type} `{!FailureHandler F Entity Event}.
Context {E : Type} `{!ErrorHandler E}.

Implicit Types (w : World (Entity := Entity) (Event := Event) (C := C) (F := F) (E := E)).
Implicit Types (m : EtcdService (Entity := Entity) (Event := Event) (C := C) (F := F) (E := E)).
Implicit Types (t : Watcher (Entity := Entity) (Event := Event) (C := C) (F := F) (E := E)).
Implicit Types (ctx : Context) (name : string) (entity : Entity) (event : Event) (ttl : Z).

(** C3: a reading goroutine that meets a DELETE event calls the failure
    handler once and returns; one that meets a PUT event calls the
    shutdown handler once, not the failure handler, and returns.  A
    goroutine that has returned reads no further response.  Over any
    sequence of responses a goroutine calls one of the two handlers once
    or none at all, and whatever the process does afterwards, a goroutine
    that has returned stays as it is. *)
Theorem C3_watcher_terminates_once :
  (forall t pre ev post canceled m,
     w_state t = Active ->
     Forall (fun ev => mvccpb.Type_ ev <> mvccpb.DELETE /\ mvccpb.Type_ ev <> mvccpb.PUT) pre ->
     mvccpb.Type_ ev = mvccpb.DELETE ->
     recv t {| clientv3.Events := pre ++ ev :: post; clientv3.Canceled := canceled |} m
     = (with_state Failed t, w_failureHandler t m))
  /\ (forall t pre ev post canceled m,
        w_state t = Active ->
        Forall (fun ev => mvccpb.Type_ ev <> mvccpb.DELETE /\ mvccpb.Type_ ev <> mvccpb.PUT) pre ->
        mvccpb.Type_ ev = mvccpb.PUT ->
        recv t {| clientv3.Events := pre ++ ev :: post; clientv3.Canceled := canceled |} m
        = (with_state Superseded t, w_shutdownHandler t m))
  /\ (forall t wresp m, w_state t <> Active -> recv t wresp m = (t, m))
  /\ (forall wresps t m,
        w_state t = Active ->
        exists st m', watch_loop wresps t m = (with_state st t, m')
          /\ ((st = Failed /\ m' = w_failureHandler t m)
              \/ (st = Superseded /\ m' = w_shutdownHandler t m)
              \/ (st = Closed /\ m' = m)))
  /\ (forall w w' i t,
        rtc step w w' -> tasks w !! i = Some t -> w_state t <> Active ->
        tasks w' !! i = Some t).
Proof.
  repeat split.
  - intros t pre ev post canceled m Hact Hpre Hev. unfold recv. rewrite Hact.
    cbn [clientv3.Events]. by rewrite range_events_delete.
  - intros t pre ev post canceled m Hact Hpre Hev. unfold recv. rewrite Hact.
    cbn [clientv3.Events]. by rewrite range_events_put.
  - intros. by apply recv_returned.
  - intros. by apply watch_loop_once.
  - intros. by eapply steps_keep_returned.
Qed.

(** C5: the failure callback of a goroutine is [failureFunc] with the
    entity and the event of the call that started it.  It calls
    [HandleFailure] on them once; when that returns an error, it calls
    [HandleError] once, with that error; when it returns nil,
    [HandleError] is not called.  The callback returns nothing, and the
    goroutine ends [Failed] either way. *)
Theorem C5_handler_error_goes_to_error_handler ctx name entity event ttl w m :
  (tasks (RefreshMonitor ctx name entity event ttl w).2 = tasks w
   \/ exists t,
        tasks (RefreshMonitor ctx name entity event ttl w).2 = tasks w ++ [t]
        /\ w_state t = Active
        /\ w_failureHandler t
           = failureFunc (store.Build monitorKeyBuilder name) entity event)
  /\ (forall f' err key,
        HandleFailure (failureHandler m) entity event = (f', Some err) ->
        trace (failureFunc key entity event m)
        = trace m
          ++ [OpLogInfo ("monitor timed out, for " +:+ key +:+ ", handling failure");
              OpHandleFailure entity event;
              OpHandleError err]
        /\ failureHandler (failureFunc key entity event m) = f'
        /\ errorHandler (failureFunc key entity event m)
           = HandleError (errorHandler m) err
        /\ client (failureFunc key entity event m) = client m)
  /\ (forall f' key,
        HandleFailure (failureHandler m) entity event = (f', None) ->
        trace (failureFunc key entity event m)
        = trace m
          ++ [OpLogInfo ("monitor timed out, for " +:+ key +:+ ", handling failure");
              OpHandleFailure entity event]
        /\ failureHandler (failureFunc key entity event m) = f'
        /\ errorHandler (failureFunc key entity event m) = errorHandler m
        /\ client (failureFunc key entity event m) = client m)
  /\ (forall t ev post canceled,
        w_state t = Active ->
        mvccpb.Type_ ev = mvccpb.DELETE ->
        w_failureHandler t = failureFunc (w_key t) entity event ->
        recv t {| clientv3.Events := ev :: post; clientv3.Canceled := canceled |} m
        = (with_state Failed t, failureFunc (w_key t) entity event m)).
Proof.
  split; [| split; [| split]].
  - destruct (RefreshMonitor_tasks ctx name entity event ttl w) as [Hsame | [_ Hnew]];
      [by left | right].
    eexists. split; [exact Hnew |]. split; reflexivity.
  - intros f' err key Hfail. unfold failureFunc. cbn [log failureHandler].
    rewrite Hfail. cbn [log trace failureHandler errorHandler client].
    rewrite <- !app_assoc. cbn [app]. auto.
  - intros f' key Hfail. unfold failureFunc. cbn [log failureHandler].
    rewrite Hfail. cbn [log trace failureHandler errorHandler client].
    rewrite <- !app_assoc. cbn [app]. auto.
  - intros t ev post canceled Hact Hev Hfh. unfold recv. rewrite Hact.
    cbn [clientv3.Events]. rewrite (range_events_delete [] ev post) by done.
    by rewrite Hfh.
Qed.

(** C6, as the code has it: the goroutine that [RefreshMonitor] starts is
    subscribed under the very context of the call, the one its [Get],
    [Grant] and [Put] were made with.  When the context of a reading
    goroutine is canceled, the goroutine ends [Closed] and the service is
    untouched: neither handler is called. *)
Theorem C6_watch_bound_to_call_context ctx name entity event ttl w :
  (tasks (RefreshMonitor ctx name entity event ttl w).2 = tasks w
   \/ exists t ops,
        tasks (RefreshMonitor ctx name entity event ttl w).2 = tasks w ++ [t]
        /\ w_ctx t = ctx /\ w_state t = Active
        /\ trace (service (RefreshMonitor ctx name entity event ttl w).2)
           = trace (service w) ++ ops ++ [OpWatch ctx (w_key t)]
        /\ Forall (fun op => op_ctx op = Some ctx) ops)
  /\ (forall (w0 : World) i t,
        tasks w0 !! i = Some t -> w_state t = Active ->
        service (cancel (w_ctx t) w0) = service w0
        /\ tasks (cancel (w_ctx t) w0) !! i = Some (with_state Closed t)).
Proof.
  split.
  - destruct (RefreshMonitor_outcome ctx name entity event ttl w); auto.
    right. eexists. eexists (_ :: _ :: _ :: nil).
    split; [reflexivity |]. split; [reflexivity |]. split; [reflexivity |].
    split.
    + cbn [called service with_client log trace client tasks new_watcher w_key].
      rewrite <- !app_assoc. reflexivity.
    + repeat constructor.
  - intros w0 i t Hi Hact. split; [reflexivity |].
    rewrite tasks_cancel, list_lookup_fmap, Hi. cbn [fmap option_fmap option_map].
    rewrite bool_decide_eq_true_2 by reflexivity.
    unfold chan_closed. by rewrite Hact.
Qed.

(** C9: when the put after a grant fails, [RefreshMonitor] returns the
    error of the put; the put is the last call made, so the lease is not
    revoked, and no goroutine is started.  On no path at all does
    [RefreshMonitor] call [Revoke] or [Delete]. *)
Theorem C9_no_revoke_no_delete ctx name entity event ttl w :
  (forall c1 response c2 lease c3 e,
     clientv3.Get (client (service w)) ctx (store.Build monitorKeyBuilder name)
       = (c1, Ok response) ->
     clientv3.Kvs response = []
     \/ (exists kv rest ttl0, clientv3.Kvs response = kv :: rest
           /\ strconv.ParseInt (mvccpb.Value kv) = Ok ttl0 /\ ttl0 <> ttl) ->
     clientv3.Grant c1 ctx ttl = (c2, Ok lease) ->
     clientv3.Put c2 ctx (store.Build monitorKeyBuilder name)
       (strconv.Sprintf_d ttl) (clientv3.ID lease) = (c3, Err e) ->
     (RefreshMonitor ctx name entity event ttl w).1 = Some e
     /\ trace (service (RefreshMonitor ctx name entity event ttl w).2)
        = trace (service w)
          ++ [OpGet ctx (store.Build monitorKeyBuilder name);
              OpGrant ctx ttl;
              OpPut ctx (store.Build monitorKeyBuilder name)
                (strconv.Sprintf_d ttl) (clientv3.ID lease)]
     /\ client (service (RefreshMonitor ctx name entity event ttl w).2) = c3
     /\ tasks (RefreshMonitor ctx name entity event ttl w).2 = tasks w)
  /\ (exists ops,
        trace (service (RefreshMonitor ctx name entity event ttl w).2)
        = trace (service w) ++ ops
        /\ Forall (fun op => is_revoke_or_delete op = false) ops).
Proof.
  split.
  - intros c1 response c2 lease c3 e Hget Hstale%stale_intro Hgrant Hput.
    rewrite (RefreshMonitor_put_failed _ _ _ _ _ _ _ _ _ _ _ _ Hget Hstale Hgrant Hput).
    cbn [fst snd called service with_client log trace client tasks].
    rewrite <- !app_assoc. auto.
  - destruct (RefreshMonitor_outcome ctx name entity event ttl w);
      cbn [called service with_client log trace client tasks];
      rewrite <- ?app_assoc; cbn [app];
      (eexists; split; [reflexivity | repeat constructor]).
Qed.

(** C10: for every name and every ttl, the empty name and the ttls below
    one among them, [RefreshMonitor] first reads the key of the name; an
    error it returns is one that a call on the store made with its own
    arguments returned, or that of [ParseInt] on the stored value; with no
    record in the store the next call is [Grant] with the ttl as it was
    given; and a stored value is compared by its integer value with the
    ttl as it was given. *)
Theorem C10_no_validation ctx name entity event ttl w :
  (exists ops,
     trace (service (RefreshMonitor ctx name entity event ttl w).2)
     = trace (service w) ++ OpGet ctx (store.Build monitorKeyBuilder name) :: ops)
  /\ (forall e,
        (RefreshMonitor ctx name entity event ttl w).1 = Some e ->
        (exists c1,
           clientv3.Get (client (service w)) ctx (store.Build monitorKeyBuilder name)
           = (c1, Err e))
        \/ (exists c1 response kv rest,
              clientv3.Get (client (service w)) ctx (store.Build monitorKeyBuilder name)
              = (c1, Ok response)
              /\ clientv3.Kvs response = kv :: rest
              /\ strconv.ParseInt (mvccpb.Value kv) = Err e)
        \/ (exists c1 lease c2, clientv3.KeepAliveOnce c1 ctx lease = (c2, Err e))
        \/ (exists c1 c2, clientv3.Grant c1 ctx ttl = (c2, Err e))
        \/ (exists c2 lease c3,
              clientv3.Put c2 ctx (store.Build monitorKeyBuilder name)
                (strconv.Sprintf_d ttl) lease = (c3, Err e)))
  /\ (forall c1 response,
        clientv3.Get (client (service w)) ctx (store.Build monitorKeyBuilder name)
          = (c1, Ok response) ->
        clientv3.Kvs response = [] ->
        exists ops,
          trace (service (RefreshMonitor ctx name entity event ttl w).2)
          = trace (service w)
            ++ OpGet ctx (store.Build monitorKeyBuilder name) :: OpGrant ctx ttl :: ops)
  /\ (forall c1 response kv rest ttl0,
        clientv3.Get (client (service w)) ctx (store.Build monitorKeyBuilder name)
          = (c1, Ok response) ->
        clientv3.Kvs response = kv :: rest ->
        strconv.ParseInt (mvccpb.Value kv) = Ok ttl0 ->
        exists ops,
          trace (service (RefreshMonitor ctx name entity event ttl w).2)
          = trace (service w)
            ++ OpGet ctx (store.Build monitorKeyBuilder name)
               :: (if bool_decide (ttl0 = ttl)
                   then OpKeepAliveOnce ctx (mvccpb.Lease kv)
                   else OpGrant ctx ttl) :: ops).
Proof.
  split; [| split; [| split]].
  - destruct (RefreshMonitor_outcome ctx name entity event ttl w);
      cbn [called service with_client log trace client tasks];
      rewrite <- ?app_assoc; cbn [app]; eauto.
  - intros e0.
    destruct (RefreshMonitor_outcome ctx name entity event ttl w) as
      [c1 e Hget | c1 response kv rest e Hget Hkvs Hparse
       | c1 response kv rest c2 r Hget Hkvs Hparse Hka
       | c1 response c2 e Hget Hstale Hgrant
       | c1 response c2 lease c3 e Hget Hstale Hgrant Hput
       | c1 response c2 lease c3 u Hget Hstale Hgrant Hput];
      intros Heq; try (injection Heq as <-); try discriminate.
    + left. eauto.
    + right; left. eauto 8.
    + right; right; left. destruct r as [| e]; [discriminate |].
      injection Heq as <-. eauto.
    + right; right; right; left. eauto.
    + right; right; right; right. eauto.
  - intros c1 response Hget Hkvs.
    assert (Hstale : stale response ttl) by (apply stale_intro; auto).
    destruct (clientv3.Grant c1 ctx ttl) as [c2 [lease | e]] eqn:Hgrant.
    + destruct (clientv3.Put c2 ctx (store.Build monitorKeyBuilder name)
                  (strconv.Sprintf_d ttl) (clientv3.ID lease))
        as [c3 [u | e]] eqn:Hput.
      * rewrite (RefreshMonitor_created _ _ _ _ _ _ _ _ _ _ _ _ Hget Hstale Hgrant Hput).
        cbn [snd called service with_client log trace client tasks].
        rewrite <- ?app_assoc; cbn [app]; eauto.
      * rewrite (RefreshMonitor_put_failed _ _ _ _ _ _ _ _ _ _ _ _ Hget Hstale Hgrant Hput).
        cbn [snd called service with_client log trace client tasks].
        rewrite <- ?app_assoc; cbn [app]; eauto.
    + rewrite (RefreshMonitor_grant_failed _ _ _ _ _ _ _ _ _ _ Hget Hstale Hgrant).
      cbn [snd called service with_client log trace client tasks].
      rewrite <- ?app_assoc; cbn [app]; eauto.
  - intros c1 response kv rest ttl0 Hget Hkvs Hparse. case_bool_decide as Httl.
    + subst ttl0.
      destruct (clientv3.KeepAliveOnce c1 ctx (mvccpb.Lease kv)) as [c2 r] eqn:Hka.
      rewrite (RefreshMonitor_renewed _ _ _ _ _ _ _ _ _ _ _ _ Hget Hkvs Hparse Hka).
      cbn [snd called service with_client log trace client tasks].
      rewrite <- ?app_assoc; cbn [app]; eauto.
    + assert (Hstale : stale response ttl) by (apply stale_intro; eauto 8).
      destruct (clientv3.Grant c1 ctx ttl) as [c2 [lease | e]] eqn:Hgrant.
      * destruct (clientv3.Put c2 ctx (store.Build monitorKeyBuilder name)
                    (strconv.Sprintf_d ttl) (clientv3.ID lease))
          as [c3 [u | e]] eqn:Hput.
        -- rewrite (RefreshMonitor_created _ _ _ _ _ _ _ _ _ _ _ _ Hget Hstale Hgrant Hput).
           cbn [snd called service with_client log trace client tasks].
           rewrite <- ?app_assoc; cbn [app]; eauto.
        -- rewrite (RefreshMonitor_put_failed _ _ _ _ _ _ _ _ _ _ _ _ Hget Hstale Hgrant Hput).
           cbn [snd called service with_client log trace client tasks].
           rewrite <- ?app_assoc; cbn [app]; eauto.
      * rewrite (RefreshMonitor_grant_failed _ _ _ _ _ _ _ _ _ _ Hget Hstale Hgrant).
        cbn [snd called service with_client log trace client tasks].
        rewrite <- ?app_assoc; cbn [app]; eauto.
Qed.

End Watching.

(** ** Keys and stored values *)

Section Keys.

Context {Entity Event : Type}.
Context {C : Type} `{!clientv3.Client C}.
Context {F : Type} `{!FailureHandler F Entity Event}.
Context {E : Type} `{!ErrorHandler E}.

Implicit Types (w : World (Entity := Entity) (Event := Event) (C := C) (F := F) (E := E)).
Implicit Types (ctx : Context) (name : string) (entity : Entity) (event : Event) (ttl : Z).

Lemma Build_inj b name1 name2 :
  store.Build b name1 = store.Build b name2 -> name1 = name2.
Proof.
  unfold store.Build. generalize (store.resourceName b). intros prefix.
  induction prefix as [| c prefix IH]; cbn; intros Heq.
  - by injection Heq.
  - injection Heq as Heq. by apply IH.
Qed.

(** Every call of [RefreshMonitor] that names a key names the key of
    the name. *)
Lemma RefreshMonitor_keys ctx name entity event ttl w :
  exists ops,
    trace (service (RefreshMonitor ctx name entity event ttl w).2)
    = trace (service w) ++ OpGet ctx (store.Build monitorKeyBuilder name) :: ops
    /\ Forall (fun op => op_key op = None
                         \/ op_key op = Some (store.Build monitorKeyBuilder name)) ops.
Proof.
  destruct (RefreshMonitor_outcome ctx name entity event ttl w);
    cbn [called service with_client log trace client tasks];
    rewrite <- ?app_assoc; cbn [app];
    (eexists; split; [reflexivity |]);
    repeat apply Forall_cons_2; try apply Forall_nil_2; cbn; auto.
Qed.

(** What [getMonitor] makes of a record. *)
Lemma getMonitor_record ctx key w c1 kv rest ttl :
  clientv3.Get (client (service w)) ctx key = (c1, Ok {| clientv3.Kvs := kv :: rest |}) ->
  strconv.ParseInt (mvccpb.Value kv) = Ok ttl ->
  (getMonitor ctx key w).1
  = Ok (Some {| Monitor.key := mvccpb.Key kv; Monitor.leaseID := mvccpb.Lease kv;
                Monitor.ttl := ttl |}).
Proof.
  intros Hget Hparse. unfold getMonitor, rpc, mbind, St_bind, mret, St_ret.
  rewrite Hget. cbv beta iota zeta. cbn [clientv3.Kvs]. by rewrite Hparse.
Qed.

End Keys.

(** ** The service on the in-memory store *)

Section OnMemStore.

Import memstore.

Implicit Types (w : World (Entity := string) (Event := string) (C := MemStore)
                      (F := Alerting) (E := ErrorSink)).
Implicit Types (s : MemStore).

Lemma down_up s r : outage s = None -> down r s = None.
Proof. unfold down. by intros ->. Qed.

Lemma get_up s ctx k :
  outage s = None ->
  clientv3.Get s ctx k = (s, Ok {| clientv3.Kvs := option_list (kvs s !! k) |}).
Proof. intros Hup. cbn. unfold get. by rewrite down_up. Qed.

(** After a call that returned nil on a store without outage, the key of
    the name holds a value that reads back as the ttl of the call. *)
Lemma RefreshMonitor_stores_ttl ctx name entity event ttl w :
  outage (client (service w)) = None ->
  is_int64 ttl ->
  (RefreshMonitor ctx name entity event ttl w).1 = None ->
  exists kv,
    kvs (client (service (RefreshMonitor ctx name entity event ttl w).2))
      !! store.Build monitorKeyBuilder name = Some kv
    /\ outage (client (service (RefreshMonitor ctx name entity event ttl w).2)) = None
    /\ strconv.ParseInt (mvccpb.Value kv) = Ok ttl.
Proof.
  intros Hup Hint.
  destruct (RefreshMonitor_outcome ctx name entity event ttl w) as
    [c1 e Hget | c1 response kv rest e Hget Hkvs Hparse
     | c1 response kv rest c2 r Hget Hkvs Hparse Hka
     | c1 response c2 e Hget Hstale Hgrant
     | c1 response c2 lease c3 e Hget Hstale Hgrant Hput
     | c1 response c2 lease c3 u Hget Hstale Hgrant Hput];
    intros Hnil; try discriminate.
  - rewrite get_up in Hget by done. injection Hget as <- <-.
    cbn [clientv3.Kvs] in Hkvs.
    destruct (kvs (client (service w)) !! store.Build monitorKeyBuilder name)
      as [kv0 |] eqn:Hlook; [| discriminate].
    injection Hkvs as -> _.
    cbn in Hka. unfold keepAliveOnce in Hka. rewrite down_up in Hka by done.
    case_match; injection Hka as <- <-; [| discriminate].
    exists kv. cbn [called service with_client client]. auto.
  - rewrite get_up in Hget by done. injection Hget as <- _.
    cbn in Hgrant. unfold grant in Hgrant. rewrite down_up in Hgrant by done.
    injection Hgrant as <- <-.
    cbn in Hput. unfold put, down in Hput. cbn [outage clientv3.ID] in Hput.
    rewrite Hup in Hput.
    case_match; [| discriminate]. injection Hput as <- _.
    eexists. cbn [called service with_client client clientv3.Watch MemStore_Client
                  watch kvs outage].
    split; [apply lookup_insert_eq |]. split; [done |].
    cbn [mvccpb.Value]. by apply ParseInt_Sprintf_d.
Qed.

End OnMemStore.

Section Values.

Context {Entity Event : Type}.
Context {C : Type} `{!clientv3.Client C}.
Context {F : Type} `{!FailureHandler F Entity Event}.
Context {E : Type} `{!ErrorHandler E}.

Implicit Types (w : World (Entity := Entity) (Event := Event) (C := C) (F := F) (E := E)).

(** C7: the key of a name is the prefix [monitors], the separator and the
    name, and names are told apart by their keys; [RefreshMonitor] reads
    that key first and names no other key afterwards; on the empty store,
    the refresh of [entity1] with ttl 30 leaves exactly the key
    [monitors/entity1], with the value ["30"]. *)
Theorem C7_key_is_prefix_and_name :
  (forall name, store.Build monitorKeyBuilder name = "monitors" +:+ "/" +:+ name)
  /\ (forall name1 name2,
        store.Build monitorKeyBuilder name1 = store.Build monitorKeyBuilder name2 ->
        name1 = name2)
  /\ (forall ctx name entity event ttl w,
        exists ops,
          trace (service (RefreshMonitor ctx name entity event ttl w).2)
          = trace (service w) ++ OpGet ctx ("monitors" +:+ "/" +:+ name) :: ops
          /\ Forall (fun op => op_key op = None
                               \/ op_key op = Some ("monitors" +:+ "/" +:+ name)) ops)
  /\ (RefreshMonitor 7%nat "entity1" "e" "ev" 30 memstore.fresh).1 = None
  /\ memstore.kvs (client (service
        (RefreshMonitor 7%nat "entity1" "e" "ev" 30 memstore.fresh).2))
     = {[ "monitors/entity1" :=
            {| mvccpb.Key := "monitors/entity1"; mvccpb.Value := "30";
               mvccpb.Lease := 1 |} ]}
  /\ w_key <$> tasks (RefreshMonitor 7%nat "entity1" "e" "ev" 30 memstore.fresh).2
     = ["monitors/entity1"].
Proof.
  split; [reflexivity |]. split; [apply Build_inj |]. split; [| split; [| split]].
  - intros. apply RefreshMonitor_keys.
  - reflexivity.
  - vm_compute. reflexivity.
  - reflexivity.
Qed.

(** C8: for an int64 ttl, [ParseInt] reads the ttl back from the string
    that [Sprintf] makes of it, which is the value [RefreshMonitor]
    writes; [getMonitor] makes of a record with that value a monitor with
    that ttl; and on a store without outage, after a call that returned
    nil, the monitor read back has the ttl of the call. *)
Theorem C8_ttl_round_trip ttl :
  is_int64 ttl ->
  strconv.ParseInt (strconv.Sprintf_d ttl) = Ok ttl
  /\ (forall ctx key w c1 k lease rest,
        clientv3.Get (client (service w)) ctx key
        = (c1, Ok {| clientv3.Kvs :=
                       {| mvccpb.Key := k; mvccpb.Value := strconv.Sprintf_d ttl;
                          mvccpb.Lease := lease |} :: rest |}) ->
        (getMonitor ctx key w).1
        = Ok (Some {| Monitor.key := k; Monitor.leaseID := lease; Monitor.ttl := ttl |}))
  /\ (forall ctx name entity event (w : World (C := memstore.MemStore)
                                         (F := memstore.Alerting)
                                         (E := memstore.ErrorSink)),
        memstore.outage (client (service w)) = None ->
        (RefreshMonitor ctx name entity event ttl w).1 = None ->
        exists mon,
          (getMonitor ctx (store.Build monitorKeyBuilder name)
             (RefreshMonitor ctx name entity event ttl w).2).1 = Ok (Some mon)
          /\ Monitor.ttl mon = ttl).
Proof.
  intros Hint. split; [by apply ParseInt_Sprintf_d |]. split.
  - intros ctx key w c1 k lease rest Hget.
    rewrite (getMonitor_record _ _ _ _ _ _ ttl Hget); [reflexivity |].
    by apply ParseInt_Sprintf_d.
  - intros ctx name entity event w Hup Hnil.
    destruct (RefreshMonitor_stores_ttl ctx name entity event ttl w Hup Hint Hnil)
      as (kv & Hlook & Hup' & Hparse).
    exists {| Monitor.key := mvccpb.Key kv; Monitor.leaseID := mvccpb.Lease kv;
              Monitor.ttl := ttl |}.
    split; [| reflexivity].
    eapply getMonitor_record; [| exact Hparse].
    rewrite get_up by done. by rewrite Hlook.
Qed.

End Values.

(** ** The claims on concrete runs *)

Section Runs.

Import memstore.

Example Sprintf_d_30 : strconv.Sprintf_d 30 = "30".
Proof. reflexivity. Qed.

Example Sprintf_d_min : strconv.Sprintf_d minInt64 = "-9223372036854775808".
Proof. vm_compute. reflexivity. Qed.

Example ParseInt_plus : strconv.ParseInt "+7" = Ok 7.
Proof. vm_compute. reflexivity. Qed.

Example ParseInt_over :
  strconv.ParseInt "9223372036854775808"
  = Err (NumError "ParseInt" "9223372036854775808" ErrRange).
Proof. vm_compute. reflexivity. Qed.

Example ParseInt_junk : strconv.ParseInt "30s" = Err (NumError "ParseInt" "30s" ErrSyntax).
Proof. vm_compute. reflexivity. Qed.

Example ParseInt_empty : strconv.ParseInt "" = Err (NumError "ParseInt" "" ErrSyntax).
Proof. reflexivity. Qed.

(** The second refresh of [entity1] with the same ttl is a heartbeat. *)
Lemma C1_witness :
  clientv3.Get (client (service monitored)) 7%nat (store.Build monitorKeyBuilder "entity1")
    = (client (service monitored), Ok {| clientv3.Kvs := [entity1_record] |})
  /\ strconv.ParseInt (mvccpb.Value entity1_record) = Ok 30
  /\ (RefreshMonitor 7%nat "entity1" "e" "ev" 30 monitored).1 = None
  /\ trace (service (RefreshMonitor 7%nat "entity1" "e" "ev" 30 monitored).2)
     = trace (service monitored)
       ++ [OpGet 7%nat "monitors/entity1"; OpKeepAliveOnce 7%nat 1]
  /\ tasks (RefreshMonitor 7%nat "entity1" "e" "ev" 30 monitored).2 = tasks monitored.
Proof.
  assert (Hget : clientv3.Get (client (service monitored)) 7%nat
                   (store.Build monitorKeyBuilder "entity1")
                 = (client (service monitored),
                    Ok {| clientv3.Kvs := [entity1_record] |}))
    by (vm_compute; reflexivity).
  assert (Hparse : strconv.ParseInt (mvccpb.Value entity1_record) = Ok 30)
    by (vm_compute; reflexivity).
  destruct (C1_renew_on_same_ttl 7%nat "entity1" "e" "ev" 30 monitored
              (client (service monitored)) {| clientv3.Kvs := [entity1_record] |}
              entity1_record [] (client (service monitored)) (Ok tt)
              Hget eq_refl Hparse)
    as (Hres & Htrace & _ & Htasks); [vm_compute; reflexivity |].
  repeat split; assumption.
Defined.

(** The first refresh of [entity1] grants, puts and watches. *)
Lemma C2_witness :
  clientv3.Get (client (service fresh)) 7%nat (store.Build monitorKeyBuilder "entity1")
    = (empty, Ok {| clientv3.Kvs := [] |})
  /\ (RefreshMonitor 7%nat "entity1" "e" "ev" 30 fresh).1 = None
  /\ trace (service (RefreshMonitor 7%nat "entity1" "e" "ev" 30 fresh).2)
     = [OpGet 7%nat "monitors/entity1"; OpGrant 7%nat 30;
        OpPut 7%nat "monitors/entity1" "30" 1; OpWatch 7%nat "monitors/entity1"]
  /\ tasks (RefreshMonitor 7%nat "entity1" "e" "ev" 30 fresh).2
     = [new_watcher 7%nat "monitors/entity1" "e" "ev"].
Proof.
  assert (Hget : clientv3.Get (client (service fresh)) 7%nat
                   (store.Build monitorKeyBuilder "entity1")
                 = (empty, Ok {| clientv3.Kvs := [] |}))
    by (vm_compute; reflexivity).
  destruct (C2_create_on_absent_or_changed_ttl 7%nat "entity1" "e" "ev" 30 fresh
              empty {| clientv3.Kvs := [] |} Hget (or_introl eq_refl))
    as (_ & _ & Hrun).
  destruct (Hrun (grant empty 7%nat 30).1 {| clientv3.ID := 1; clientv3.TTL := 30 |}
              (put (grant empty 7%nat 30).1 7%nat "monitors/entity1" "30" 1).1 tt)
    as (Hres & Htrace & _ & Htasks); [vm_compute; reflexivity .. |].
  repeat split; assumption.
Defined.

(** The goroutine of [entity1] meets a DELETE event. *)
Lemma C3_witness :
  mvccpb.Type_ {| mvccpb.Type_ := 1; mvccpb.Kv := entity1_record |} = mvccpb.DELETE
  /\ recv (new_watcher 7%nat "monitors/entity1" "e" "ev")
       {| clientv3.Events := [{| mvccpb.Type_ := 1; mvccpb.Kv := entity1_record |}];
          clientv3.Canceled := false |}
       (service monitored)
     = (with_state Failed (new_watcher 7%nat "monitors/entity1" "e" "ev"),
        failureFunc "monitors/entity1" "e" "ev" (service monitored)).
Proof.
  split; [reflexivity |].
  exact (proj1 (C3_watcher_terminates_once (C := MemStore) (F := Alerting) (E := ErrorSink))
           (new_watcher 7%nat "monitors/entity1" "e" "ev") []
           {| mvccpb.Type_ := 1; mvccpb.Kv := entity1_record |} [] false
           (service monitored) eq_refl (Forall_nil_2 _) eq_refl).
Defined.

(** The store cannot be reached for the read. *)
Lemma C4_witness :
  clientv3.Get (failing RpcGet ErrUnavailable empty) 7%nat
    (store.Build monitorKeyBuilder "entity1")
  = (failing RpcGet ErrUnavailable empty, Err ErrUnavailable)
  /\ (RefreshMonitor 7%nat "entity1" "e" "ev" 30
        (boot (failing RpcGet ErrUnavailable empty) None)).1 = Some ErrUnavailable
  /\ trace (service (RefreshMonitor 7%nat "entity1" "e" "ev" 30
                       (boot (failing RpcGet ErrUnavailable empty) None)).2)
     = [OpGet 7%nat "monitors/entity1"]
  /\ tasks (RefreshMonitor 7%nat "entity1" "e" "ev" 30
              (boot (failing RpcGet ErrUnavailable empty) None)).2 = [].
Proof.
  assert (Hget : clientv3.Get (failing RpcGet ErrUnavailable empty) 7%nat
                   (store.Build monitorKeyBuilder "entity1")
                 = (failing RpcGet ErrUnavailable empty, Err ErrUnavailable))
    by (vm_compute; reflexivity).
  split; [exact Hget |].
  exact (proj1 (C4_errors_returned_and_abort 7%nat "entity1" "e" "ev" 30
                  (boot (failing RpcGet ErrUnavailable empty) None))
           (failing RpcGet ErrUnavailable empty) ErrUnavailable Hget).
Defined.

(** The failure handler of [entity1] fails itself. *)
Lemma C5_witness :
  HandleFailure (failureHandler (service (boot empty (Some ErrPager)))) "e" "ev"
  = ({| answer := Some ErrPager; handled := [("e", "ev")] |}, Some ErrPager)
  /\ trace (failureFunc "monitors/entity1" "e" "ev" (service (boot empty (Some ErrPager))))
     = [OpLogInfo "monitor timed out, for monitors/entity1, handling failure";
        OpHandleFailure "e" "ev"; OpHandleError ErrPager]
  /\ errorHandler (failureFunc "monitors/entity1" "e" "ev"
                     (service (boot empty (Some ErrPager))))
     = [ErrPager].
Proof.
  split; [reflexivity |].
  destruct (proj1 (proj2 (C5_handler_error_goes_to_error_handler 7%nat "entity1" "e" "ev" 30
                            fresh (service (boot empty (Some ErrPager)))))
              {| answer := Some ErrPager; handled := [("e", "ev")] |} ErrPager
              "monitors/entity1" eq_refl)
    as (Htrace & _ & Herr & _).
  split; assumption.
Defined.

(** C6, as stated, fails on the first refresh of [entity1]: its goroutine
    is subscribed under the context of the call, 7, and does not read on
    once that context is canceled. *)
Lemma C6_counterexample :
  w_ctx <$> tasks monitored !! 0%nat = Some 7%nat
  /\ ~ reads_after_cancel 7%nat 0%nat monitored.
Proof. split; [reflexivity | discriminate]. Qed.

(** The goroutine of [entity1] when its context, 7, is canceled. *)
Lemma C6_witness :
  tasks monitored !! 0%nat = Some (new_watcher 7%nat "monitors/entity1" "e" "ev")
  /\ w_state <$> tasks monitored !! 0%nat = Some Active
  /\ service (cancel 7%nat monitored) = service monitored
  /\ tasks (cancel 7%nat monitored) !! 0%nat
     = Some (with_state Closed (new_watcher 7%nat "monitors/entity1" "e" "ev")).
Proof.
  split; [reflexivity |]. split; [reflexivity |].
  destruct (proj2 (C6_watch_bound_to_call_context 7%nat "entity1" "e" "ev" 30 fresh)
              monitored 0%nat (new_watcher 7%nat "monitors/entity1" "e" "ev")
              eq_refl eq_refl)
    as [Hservice Hclosed].
  split; assumption.
Defined.

(** Two names with one key are one name. *)
Lemma C7_witness :
  store.Build monitorKeyBuilder "entity1" = "monitors/entity1"
  /\ (store.Build monitorKeyBuilder "entity1" = store.Build monitorKeyBuilder "entity1" ->
      "entity1" = "entity1").
Proof.
  split.
  - exact (proj1 (C7_key_is_prefix_and_name (C := MemStore) (F := Alerting)
                    (E := ErrorSink) (Entity := string) (Event := string)) "entity1").
  - exact (proj1 (proj2 (C7_key_is_prefix_and_name (C := MemStore) (F := Alerting)
                           (E := ErrorSink) (Entity := string) (Event := string)))
             "entity1" "entity1").
Defined.

(** The least int64 goes through the store value and back. *)
Lemma C8_witness :
  is_int64 minInt64
  /\ strconv.ParseInt (strconv.Sprintf_d minInt64) = Ok minInt64.
Proof.
  assert (Hint : is_int64 minInt64) by (unfold is_int64, minInt64, maxInt64; lia).
  split; [exact Hint |].
  exact (proj1 (C8_ttl_round_trip (C := MemStore) (F := Alerting) (E := ErrorSink)
                  (Entity := string) (Event := string) minInt64 Hint)).
Defined.

(** The store cannot be reached for the put: the lease granted just
    before stays in the store. *)
Lemma C9_witness :
  (RefreshMonitor 7%nat "entity1" "e" "ev" 30
     (boot (failing RpcPut ErrUnavailable empty) None)).1 = Some ErrUnavailable
  /\ trace (service (RefreshMonitor 7%nat "entity1" "e" "ev" 30
                       (boot (failing RpcPut ErrUnavailable empty) None)).2)
     = [OpGet 7%nat "monitors/entity1"; OpGrant 7%nat 30;
        OpPut 7%nat "monitors/entity1" "30" 1]
  /\ tasks (RefreshMonitor 7%nat "entity1" "e" "ev" 30
              (boot (failing RpcPut ErrUnavailable empty) None)).2 = []
  /\ leases (client (service (RefreshMonitor 7%nat "entity1" "e" "ev" 30
                                (boot (failing RpcPut ErrUnavailable empty) None)).2))
     = {[ 1 := 30 ]}.
Proof.
  destruct (proj1 (C9_no_revoke_no_delete 7%nat "entity1" "e" "ev" 30
                     (boot (failing RpcPut ErrUnavailable empty) None))
              (failing RpcPut ErrUnavailable empty) {| clientv3.Kvs := [] |}
              (grant (failing RpcPut ErrUnavailable empty) 7%nat 30).1
              {| clientv3.ID := 1; clientv3.TTL := 30 |}
              (grant (failing RpcPut ErrUnavailable empty) 7%nat 30).1
              ErrUnavailable)
    as (Hres & Htrace & Hclient & Htasks);
    [vm_compute; reflexivity | left; reflexivity | vm_compute; reflexivity ..|].
  split; [exact Hres |]. split; [exact Htrace |]. split; [exact Htasks |].
  rewrite Hclient. vm_compute. reflexivity.
Defined.

(** The empty name with a negative ttl. *)
Lemma C10_witness :
  clientv3.Get (client (service fresh)) 7%nat (store.Build monitorKeyBuilder "")
    = (empty, Ok {| clientv3.Kvs := [] |})
  /\ exists ops,
       trace (service (RefreshMonitor 7%nat "" "e" "ev" (-5) fresh).2)
       = trace (service fresh) ++ OpGet 7%nat "monitors/" :: OpGrant 7%nat (-5) :: ops.
Proof.
  assert (Hget : clientv3.Get (client (service fresh)) 7%nat
                   (store.Build monitorKeyBuilder "")
                 = (empty, Ok {| clientv3.Kvs := [] |}))
    by (vm_compute; reflexivity).
  split; [exact Hget |].
  exact (proj1 (proj2 (proj2 (C10_no_validation 7%nat "" "e" "ev" (-5) fresh)))
           empty {| clientv3.Kvs := [] |} Hget eq_refl).
Defined.

(** The empty name, and the ttls 0 and -5, are served like any other. *)
Example refresh_empty_name_zero_ttl :
  (RefreshMonitor 7%nat "" "e" "ev" 0 fresh).1 = None
  /\ trace (service (RefreshMonitor 7%nat "" "e" "ev" 0 fresh).2)
     = [OpGet 7%nat "monitors/"; OpGrant 7%nat 0;
        OpPut 7%nat "monitors/" "0" 1; OpWatch 7%nat "monitors/"].
Proof. split; vm_compute; reflexivity. Qed.

Example refresh_negative_ttl_twice :
  (RefreshMonitor 7%nat "" "e" "ev" (-5) fresh).1 = None
  /\ trace (service (RefreshMonitor 7%nat "" "e" "ev" (-5)
                       (RefreshMonitor 7%nat "" "e" "ev" (-5) fresh).2).2)
     = [OpGet 7%nat "monitors/"; OpGrant 7%nat (-5);
        OpPut 7%nat "monitors/" "-5" 1; OpWatch 7%nat "monitors/";
        OpGet 7%nat "monitors/"; OpKeepAliveOnce 7%nat 1].
Proof. split; vm_compute; reflexivity. Qed.

(** A change of ttl leaves the lease of the old ttl in the store. *)
Example refresh_changed_ttl_keeps_old_lease :
  leases (client (service (RefreshMonitor 7%nat "entity1" "e" "ev" 60 monitored).2))
  = {[ 1 := 30; 2 := 60 ]}
  /\ kvs (client (service (RefreshMonitor 7%nat "entity1" "e" "ev" 60 monitored).2))
     = {[ "monitors/entity1" :=
            {| mvccpb.Key := "monitors/entity1"; mvccpb.Value := "60";
               mvccpb.Lease := 2 |} ]}.
Proof. split; vm_compute; reflexivity. Qed.

(** The end of the scenario: [entity1]'s key is deleted, the failure
    handler is called once with the entity and event of the refresh; a
    second deletion is seen by nobody. *)
Example entity1_expires_once :
  handled (failureHandler (service (deliver 0 (event_on_entity1 mvccpb.DELETE) monitored)))
  = [("e", "ev")]
  /\ w_state <$> tasks (deliver 0 (event_on_entity1 mvccpb.DELETE) monitored) = [Failed]
  /\ deliver 0 (event_on_entity1 mvccpb.DELETE)
       (deliver 0 (event_on_entity1 mvccpb.DELETE) monitored)
     = deliver 0 (event_on_entity1 mvccpb.DELETE) monitored.
Proof.
  split; [reflexivity |]. split; [reflexivity |].
  by eapply deliver_returned.
Qed.

(** A rewrite of the key ends the goroutine without the failure handler. *)
Example entity1_superseded :
  handled (failureHandler (service (deliver 0 (event_on_entity1 mvccpb.PUT) monitored)))
  = []
  /\ w_state <$> tasks (deliver 0 (event_on_entity1 mvccpb.PUT) monitored) = [Superseded]
  /\ trace (service (deliver 0 (event_on_entity1 mvccpb.PUT) monitored))
     = trace (service monitored)
       ++ [OpLogInfo "shutting down monitor for %smonitors/entity1"].
Proof. repeat split. Qed.

End Runs.

(** * More of the code *)

(** ** What [ParseInt] accepts *)

Section DecimalBounds.

Import strconv.

(** The loop of [ParseUint] stays within 64 bits, and a range error
    comes with the greatest value. *)
Lemma ParseUint_loop_bounds s : forall n,
  0 <= n <= maxUint64 ->
  match ParseUint_loop s n with
  | (un, None) => 0 <= un <= maxUint64
  | (un, Some ErrRange) => un = maxUint64
  | (un, Some ErrSyntax) => un = 0
  end.
Proof.
  induction s as [| d rest IH]; intros n Hn; cbn [ParseUint_loop]; [done |].
  destruct ((48 <=? byte_val d) && (byte_val d <=? 57)); [| done].
  destruct (maxUint64 / 10 + 1 <=? n); [done |].
  destruct (((n * 10) mod 2 ^ 64 + (byte_val d - 48)) mod 2 ^ 64 <? (n * 10) mod 2 ^ 64)
    eqn:Hwrap; cbn [orb]; [done |].
  destruct (maxUint64 <? ((n * 10) mod 2 ^ 64 + (byte_val d - 48)) mod 2 ^ 64)
    eqn:Hmax; [done |].
  apply IH. apply Z.ltb_ge in Hmax. split; [| done].
  apply Z.mod_pos_bound. done.
Qed.

(** Whatever string [ParseInt] accepts, the integer is an int64. *)
Lemma ParseInt_is_int64 s n : ParseInt s = Ok n -> is_int64 n.
Proof.
  unfold ParseInt. destruct s as [| c rest]; [done |].
  set (s' := if bool_decide (c = "+"%char) then rest
             else if bool_decide (c = "-"%char) then rest else String c rest).
  assert (Hb : match ParseUint s' with
               | (un, None) => 0 <= un <= maxUint64
               | (un, Some ErrRange) => un = maxUint64
               | (un, Some ErrSyntax) => un = 0
               end).
  { unfold ParseUint. destruct s'; [done |].
    apply ParseUint_loop_bounds. unfold maxUint64. lia. }
  destruct (ParseUint s') as [un [[] |]]; [done | |].
  - subst un. destruct (bool_decide (c = "-"%char)); cbn; discriminate.
  - unfold is_int64, minInt64, maxInt64.
    destruct (bool_decide (c = "-"%char)); cbn [negb andb].
    + destruct (2 ^ 63 <? un) eqn:Hcut; [discriminate |].
      apply Z.ltb_ge in Hcut. intros [= <-]. lia.
    + destruct (2 ^ 63 <=? un) eqn:Hcut; [discriminate |].
      apply Z.leb_gt in Hcut. intros [= <-]. lia.
Qed.

(** An error of [ParseInt] names [ParseInt] and the whole input. *)
Lemma ParseInt_error s e :
  ParseInt s = Err e ->
  e = NumError "ParseInt" s ErrSyntax \/ e = NumError "ParseInt" s ErrRange.
Proof.
  unfold ParseInt. destruct s as [| c rest]; [intros [= <-]; auto |].
  destruct (ParseUint _) as [un [[] |]];
    repeat case_match; intros [= <-]; auto.
Qed.

End DecimalBounds.

(** ** More on [getMonitor] and [RefreshMonitor] *)

Section ReadAndRefresh.

Context {Entity Event : Type}.
Context {C : Type} `{!clientv3.Client C}.
Context {F : Type} `{!FailureHandler F Entity Event}.
Context {E : Type} `{!ErrorHandler E}.

Implicit Types (w : World (Entity := Entity) (Event := Event) (C := C) (F := F) (E := E)).
Implicit Types (m : EtcdService (Entity := Entity) (Event := Event) (C := C) (F := F) (E := E)).
Implicit Types (t : Watcher (Entity := Entity) (Event := Event) (C := C) (F := F) (E := E)).
Implicit Types (ctx : Context) (name : string) (entity : Entity) (event : Event) (ttl : Z).

(** X1: [getMonitor] only reads.  Whatever the store answers, it makes
    one call, the [Get] of the key, leaves the client where that call
    left it, and touches neither the handlers nor the goroutines. *)
Theorem getMonitor_only_reads ctx key w :
  trace (service (getMonitor ctx key w).2) = trace (service w) ++ [OpGet ctx key]
  /\ client (service (getMonitor ctx key w).2)
     = (clientv3.Get (client (service w)) ctx key).1
  /\ failureHandler (service (getMonitor ctx key w).2) = failureHandler (service w)
  /\ errorHandler (service (getMonitor ctx key w).2) = errorHandler (service w)
  /\ tasks (getMonitor ctx key w).2 = tasks w.
Proof.
  unfold getMonitor, rpc, mbind, St_bind, mret, St_ret.
  destruct (clientv3.Get (client (service w)) ctx key) as [c1 [response | e]];
    cbv beta iota zeta; [| done].
  destruct (clientv3.Kvs response) as [| kv rest]; [done |].
  by destruct (strconv.ParseInt (mvccpb.Value kv)).
Qed.

(** X2: what [getMonitor] returns.  An error is the error of [Get], or
    that of [ParseInt], which names the value of the first record.  A
    monitor is made of the first record alone, whatever follows it: its
    key and lease are those of the record, and its ttl is the int64 that
    the value of the record reads as.  No monitor and no error means that
    [Get] returned no record. *)
Theorem getMonitor_result ctx key w :
  match (getMonitor ctx key w).1 with
  | Err e =>
      (exists c1, clientv3.Get (client (service w)) ctx key = (c1, Err e))
      \/ (exists c1 kv rest k,
            clientv3.Get (client (service w)) ctx key
            = (c1, Ok {| clientv3.Kvs := kv :: rest |})
            /\ e = NumError "ParseInt" (mvccpb.Value kv) k)
  | Ok (Some mon) =>
      exists c1 kv rest,
        clientv3.Get (client (service w)) ctx key
        = (c1, Ok {| clientv3.Kvs := kv :: rest |})
        /\ Monitor.key mon = mvccpb.Key kv
        /\ Monitor.leaseID mon = mvccpb.Lease kv
        /\ strconv.ParseInt (mvccpb.Value kv) = Ok (Monitor.ttl mon)
        /\ is_int64 (Monitor.ttl mon)
  | Ok None =>
      exists c1,
        clientv3.Get (client (service w)) ctx key = (c1, Ok {| clientv3.Kvs := [] |})
  end.
Proof.
  unfold getMonitor, rpc, mbind, St_bind, mret, St_ret.
  destruct (clientv3.Get (client (service w)) ctx key) as [c1 [[kvs] | e]];
    cbv beta iota zeta; cbn [fst clientv3.Kvs]; [| eauto].
  destruct kvs as [| kv rest]; cbn [fst]; [eauto |].
  destruct (strconv.ParseInt (mvccpb.Value kv)) as [ttl | e] eqn:Hparse; cbn [fst].
  - exists c1, kv, rest. cbn [Monitor.key Monitor.leaseID Monitor.ttl].
    split; [done |]. split; [done |]. split; [done |]. split; [done |].
    by eapply ParseInt_is_int64.
  - right. exists c1, kv, rest.
    destruct (ParseInt_error _ _ Hparse) as [-> | ->]; eauto.
Qed.

(** X3: two refreshes with different ttls write different values: the
    decimal strings of two int64 are the same only for the same int64. *)
Theorem refresh_values_differ ttl1 ttl2 :
  is_int64 ttl1 -> is_int64 ttl2 ->
  strconv.Sprintf_d ttl1 = strconv.Sprintf_d ttl2 -> ttl1 = ttl2.
Proof.
  intros H1 H2 Heq.
  pose proof (ParseInt_Sprintf_d ttl1 H1) as Hparse.
  rewrite Heq, (ParseInt_Sprintf_d ttl2 H2) in Hparse. congruence.
Qed.

(** X4: [RefreshMonitor] calls no handler and leaves the goroutines that
    run alone: the state of both handlers is as before, the goroutines of
    before are all there, unchanged, at most one is added, and none when
    an error is returned. *)
Theorem RefreshMonitor_frame ctx name entity event ttl w :
  failureHandler (service (RefreshMonitor ctx name entity event ttl w).2)
  = failureHandler (service w)
  /\ errorHandler (service (RefreshMonitor ctx name entity event ttl w).2)
     = errorHandler (service w)
  /\ exists new,
       tasks (RefreshMonitor ctx name entity event ttl w).2 = tasks w ++ new
       /\ (length new <= 1)%nat
       /\ ((RefreshMonitor ctx name entity event ttl w).1 <> None -> new = []).
Proof.
  destruct (RefreshMonitor_outcome ctx name entity event ttl w);
    (split; [reflexivity |]; split; [reflexivity |]).
  1-5: exists []; rewrite app_nil_r; cbn [called tasks length]; split; [done |];
       split; [lia | done].
  eexists [_]. cbn [tasks length]. split; [done |]. split; [lia | done].
Qed.

(** X5: the calls of one [RefreshMonitor].  There are between one and
    four, every one of them is a call on the store made under the
    context of the caller; a [Put] comes only right after the [Grant] of
    the ttl; and one goroutine is started per [Watch], of which there is
    at most one. *)
Theorem RefreshMonitor_calls ctx name entity event ttl w :
  exists ops,
    trace (service (RefreshMonitor ctx name entity event ttl w).2)
    = trace (service w) ++ ops
    /\ (1 <= length ops <= 4)%nat
    /\ Forall (fun op => op_ctx op = Some ctx) ops
    /\ length (tasks (RefreshMonitor ctx name entity event ttl w).2)
       = (length (tasks w) + count_if is_watch ops)%nat
    /\ (count_if is_watch ops <= 1)%nat
    /\ (forall pre key value lease post,
          ops = pre ++ OpPut ctx key value lease :: post ->
          exists pre', pre = pre' ++ [OpGrant ctx ttl]).
Proof.
  destruct (RefreshMonitor_outcome ctx name entity event ttl w);
    cbn [called service with_client log trace client tasks];
    rewrite <- ?app_assoc; cbn [app];
    (eexists; split; [reflexivity |]);
    (split; [cbn [length]; lia |]);
    (split; [repeat apply Forall_cons_2; try apply Forall_nil_2; reflexivity |]);
    rewrite ?length_app; cbn [count_if is_watch length Nat.add];
    (split; [lia |]); (split; [lia |]);
    intros pre key0 value lease0 post Hops.
  all: repeat (destruct pre as [| ? pre]; cbn [app] in Hops;
               [try discriminate | injection Hops as <- Hops]).
  all: try discriminate.
  all: try by destruct pre.
  all: try (injection Hops as <- <- <- <-).
  all: try by exists [OpGet ctx (store.Build monitorKeyBuilder name)].
Qed.

End ReadAndRefresh.

(** ** More on the goroutine of [watchMon] *)

Section Verdict.

Context {Entity Event : Type}.
Context {C : Type} `{!clientv3.Client C}.
Context {F : Type} `{!FailureHandler F Entity Event}.
Context {E : Type} `{!ErrorHandler E}.

Implicit Types (w : World (Entity := Entity) (Event := Event) (C := C) (F := F) (E := E)).
Implicit Types (m : EtcdService (Entity := Entity) (Event := Event) (C := C) (F := F) (E := E)).
Implicit Types (t : Watcher (Entity := Entity) (Event := Event) (C := C) (F := F) (E := E)).

Lemma find_app {A : Type} (p : A -> bool) (l1 l2 : list A) :
  List.find p (l1 ++ l2)
  = match List.find p l1 with Some x => Some x | None => List.find p l2 end.
Proof.
  induction l1 as [| x l1 IH]; [done |]. cbn [app List.find]. by destruct (p x).
Qed.

Lemma with_state_same t : with_state (w_state t) t = t.
Proof. by destruct t. Qed.

(** The inner loop returns at the first DELETE or PUT event. *)
Lemma range_events_find evs fh sh m :
  range_events evs fh sh m
  = match List.find decisive evs with
    | Some ev =>
        if bool_decide (mvccpb.Type_ ev = mvccpb.DELETE) then (Failed, fh m)
        else (Superseded, sh m)
    | None => (Active, m)
    end.
Proof.
  induction evs as [| ev evs IH]; [done |].
  cbn [range_events List.find]. unfold decisive at 1.
  destruct (bool_decide (mvccpb.Type_ ev = mvccpb.DELETE)) eqn:Hd; cbn [orb].
  - by rewrite Hd.
  - destruct (bool_decide (mvccpb.Type_ ev = mvccpb.PUT)) eqn:Hp; [| done].
    by rewrite Hd.
Qed.

(** X6: a response with no event, or with events that are neither DELETE
    nor PUT, changes nothing: the goroutine reads on and no handler is
    called. *)
Theorem recv_ignored t wresp m :
  Forall (fun ev => mvccpb.Type_ ev <> mvccpb.DELETE /\ mvccpb.Type_ ev <> mvccpb.PUT)
    (clientv3.Events wresp) ->
  recv t wresp m = (t, m).
Proof.
  intros Hall. unfold recv. destruct (w_state t) eqn:Hst; try done.
  rewrite range_events_ignored by done. by rewrite <- Hst, with_state_same.
Qed.

(** The whole loop returns at the first DELETE or PUT event of the
    channel. *)
Lemma watch_loop_find wresps : forall t m,
  w_state t = Active ->
  watch_loop wresps t m
  = match List.find decisive (concat (clientv3.Events <$> wresps)) with
    | Some ev =>
        if bool_decide (mvccpb.Type_ ev = mvccpb.DELETE)
        then (with_state Failed t, w_failureHandler t m)
        else (with_state Superseded t, w_shutdownHandler t m)
    | None => (with_state Closed t, m)
    end.
Proof.
  induction wresps as [| wresp wresps IH]; intros t m Hact.
  - cbn. unfold chan_closed. by rewrite Hact.
  - cbn [watch_loop fmap list_fmap concat]. unfold recv. rewrite Hact.
    rewrite range_events_find, find_app.
    destruct (List.find decisive (clientv3.Events wresp)) as [ev |] eqn:Hfind.
    + destruct (bool_decide (mvccpb.Type_ ev = mvccpb.DELETE));
        by rewrite watch_loop_returned.
    + by rewrite (IH (with_state Active t) m eq_refl).
Qed.

(** X7: the life of a goroutine is decided by the first DELETE or PUT
    event among all the events of its channel, in the order they come:
    a DELETE ends it [Failed] with the failure handler called once, a PUT
    ends it [Superseded] with the shutdown handler called once, and with
    neither it ends [Closed] with no handler called. *)
Theorem watch_loop_verdict wresps t m :
  w_state t = Active ->
  watch_loop wresps t m
  = (with_state (verdict (concat (clientv3.Events <$> wresps))) t,
     handled_by (verdict (concat (clientv3.Events <$> wresps))) t m).
Proof.
  intros Hact. rewrite watch_loop_find by done. unfold verdict.
  destruct (List.find decisive _) as [ev |]; [| done].
  by destruct (bool_decide _).
Qed.

(** X8: how the store cuts the events into responses does not matter:
    two channels that carry the same events in the same order leave the
    goroutine and the service in the same state. *)
Theorem watch_loop_batching wresps1 wresps2 t m :
  concat (clientv3.Events <$> wresps1) = concat (clientv3.Events <$> wresps2) ->
  watch_loop wresps1 t m = watch_loop wresps2 t m.
Proof.
  intros Heq. destruct (decide (w_state t = Active)) as [Hact | Hret].
  - by rewrite !watch_loop_find, Heq.
  - by rewrite !watch_loop_returned.
Qed.

End Verdict.


(** ** Accounts of a running process *)

Section Accounts.

Context {Entity Event : Type}.
Context {C : Type} `{!clientv3.Client C}.
Context {F : Type} `{!FailureHandler F Entity Event}.
Context {E : Type} `{!ErrorHandler E}.

Implicit Types (w : World (Entity := Entity) (Event := Event) (C := C) (F := F) (E := E)).
Implicit Types (m : EtcdService (Entity := Entity) (Event := Event) (C := C) (F := F) (E := E)).
Implicit Types (t : Watcher (Entity := Entity) (Event := Event) (C := C) (F := F) (E := E)).
Implicit Types (ops : list (Op Entity Event)).

Lemma count_if_app {A : Type} (p : A -> bool) (l1 l2 : list A) :
  count_if p (l1 ++ l2) = (count_if p l1 + count_if p l2)%nat.
Proof. induction l1 as [| x l1 IH]; cbn [app count_if]; lia. Qed.

Lemma count_if_le_length {A : Type} (p : A -> bool) (l : list A) :
  (count_if p l <= length l)%nat.
Proof. induction l as [| x l IH]; cbn [count_if length]; [lia |]. destruct (p x); lia. Qed.

Lemma count_if_insert {A : Type} (p : A -> bool) (l : list A) : forall i x y,
  l !! i = Some x ->
  (count_if p (<[i := y]> l) + (if p x then 1 else 0)
   = count_if p l + (if p y then 1 else 0))%nat.
Proof.
  induction l as [| z l IH]; intros i x y Hi; [done |].
  destruct i as [| i].
  - injection Hi as ->. cbn [count_if]. cbn. lia.
  - cbn in Hi. cbn [count_if]. change (<[S i := y]> (z :: l)) with (z :: <[i := y]> l).
    cbn [count_if]. specialize (IH i x y Hi). lia.
Qed.

Lemma count_if_fmap_same {A : Type} (p : A -> bool) (f : A -> A) (l : list A) :
  (forall x, p (f x) = p x) -> count_if p (f <$> l) = count_if p l.
Proof.
  intros Hf. induction l as [| x l IH]; [done |].
  cbn [fmap list_fmap count_if]. rewrite Hf. f_equal. exact IH.
Qed.

(** What the two closures add to the trace. *)
Lemma failureFunc_trace key entity event m :
  exists ops,
    trace (failureFunc key entity event m) = trace m ++ ops
    /\ count_if is_handle_failure ops = 1%nat
    /\ (count_if is_handle_error ops <= 1)%nat
    /\ count_if is_watch ops = 0%nat.
Proof.
  unfold failureFunc. cbn [log failureHandler].
  destruct (HandleFailure (failureHandler m) entity event) as [f' [err |]];
    cbn [log trace failureHandler errorHandler client];
    rewrite <- ?app_assoc; cbn [app];
    (eexists; split; [reflexivity |]); cbn; lia.
Qed.

Lemma shutdownFunc_trace key m :
  exists ops,
    trace (shutdownFunc key m) = trace m ++ ops
    /\ count_if is_handle_failure ops = 0%nat
    /\ count_if is_handle_error ops = 0%nat
    /\ count_if is_watch ops = 0%nat.
Proof. eexists. split; [reflexivity |]. cbn. lia. Qed.

Lemma pristine_balanced w : pristine w -> balanced w.
Proof. intros [Ht Htr]. unfold balanced. rewrite Ht, Htr. cbn. auto with lia. Qed.

Lemma from_refresh_with_state st t : from_refresh t -> from_refresh (with_state st t).
Proof. intros (entity & event & Hf & Hs). by exists entity, event. Qed.

Lemma from_refresh_chan_closed t : from_refresh t -> from_refresh (chan_closed t).
Proof. unfold chan_closed. destruct (w_state t); auto using from_refresh_with_state. Qed.

Lemma step_balanced w w' : step w w' -> balanced w -> balanced w'.
Proof.
  intros Hstep (Hfrom & Hwatch & Hfail & Herr).
  destruct Hstep as [ctx name entity event ttl w | i wresp w | ctx w].
  - unfold balanced.
    destruct (RefreshMonitor_outcome ctx name entity event ttl w);
      cbn [called service with_client log trace client tasks];
      rewrite ?count_if_app, ?length_app; cbn [count_if is_watch is_handle_failure
        is_handle_error length Nat.add].
    1-5: repeat split; [done | lia ..].
    split; [| split; [| split]].
    + apply Forall_app. split; [done |]. apply Forall_singleton.
      by exists entity, event.
    + lia.
    + change (in_state Failed (new_watcher ctx (store.Build monitorKeyBuilder name)
                                 entity event)) with false.
      cbv iota. lia.
    + lia.
  - unfold deliver. destruct (tasks w !! i) as [t |] eqn:Hi; [| done].
    pose proof (Forall_lookup_1 _ _ _ _ Hfrom Hi) as (entity & event & Hfh & Hsh).
    unfold recv. destruct (w_state t) eqn:Hst.
    2-4: unfold balanced; cbn [service tasks]; rewrite list_insert_id by done; done.
    pose proof (count_if_insert (in_state Failed) (tasks w) i t) as Hins.
    assert (Hnot : in_state Failed t = false)
      by (unfold in_state; rewrite Hst; by apply bool_decide_eq_false_2).
    rewrite Hnot in Hins.
    destruct (range_events_once (clientv3.Events wresp)
                (w_failureHandler t) (w_shutdownHandler t) (service w))
      as [Hr | [Hr | Hr]]; rewrite Hr; unfold balanced; cbn [service tasks].
    + specialize (Hins (with_state Active t) Hi).
      change (in_state Failed (with_state Active t)) with false in Hins. cbv iota in Hins.
      rewrite length_insert. split; [| lia].
      apply Forall_insert; [done |]. apply from_refresh_with_state. by exists entity, event.
    + specialize (Hins (with_state Failed t) Hi).
      change (in_state Failed (with_state Failed t)) with true in Hins. cbv iota in Hins.
      rewrite length_insert, Hfh.
      destruct (failureFunc_trace (w_key t) entity event (service w))
        as (ops & -> & Hf1 & He1 & Hw1).
      rewrite !count_if_app. split; [| lia].
      apply Forall_insert; [done |]. apply from_refresh_with_state. by exists entity, event.
    + specialize (Hins (with_state Superseded t) Hi).
      change (in_state Failed (with_state Superseded t)) with false in Hins. cbv iota in Hins.
      rewrite length_insert, Hsh.
      destruct (shutdownFunc_trace (w_key t) (service w)) as (ops & -> & Hf1 & He1 & Hw1).
      rewrite !count_if_app. split; [| lia].
      apply Forall_insert; [done |]. apply from_refresh_with_state. by exists entity, event.
  - unfold balanced. rewrite tasks_cancel. cbn [cancel service].
    rewrite length_fmap, count_if_fmap_same.
    + split; [| auto]. apply Forall_fmap. eapply Forall_impl; [exact Hfrom |].
      intros t Ht. unfold compose. case_bool_decide; auto using from_refresh_chan_closed.
    + intros t. case_bool_decide; [| done]. unfold chan_closed, in_state.
      destruct (w_state t) eqn:Hst; cbn [with_state w_state]; rewrite ?Hst; done.
Qed.

Lemma steps_balanced w w' : rtc step w w' -> balanced w -> balanced w'.
Proof. induction 1; eauto using step_balanced. Qed.

(** X9: in a process that started with a service not yet used, there
    are as many goroutines as [Watch] calls were made, whatever was
    refreshed, delivered and canceled since. *)
Theorem goroutines_match_watches w0 w :
  pristine w0 -> rtc step w0 w ->
  length (tasks w) = count_if is_watch (trace (service w)).
Proof.
  intros Hp Hsteps. by destruct (steps_balanced _ _ Hsteps (pristine_balanced _ Hp)) as (_ & ? & _).
Qed.

(** X10: in such a process the failure handler has been called once for
    each goroutine that ended [Failed] and not otherwise, so never twice
    for one goroutine; and the error handler at most once per call of the
    failure handler. *)
Theorem failures_reported_once w0 w :
  pristine w0 -> rtc step w0 w ->
  count_if is_handle_failure (trace (service w)) = count_if (in_state Failed) (tasks w)
  /\ (count_if is_handle_failure (trace (service w)) <= length (tasks w))%nat
  /\ (count_if is_handle_error (trace (service w))
      <= count_if is_handle_failure (trace (service w)))%nat.
Proof.
  intros Hp Hsteps.
  destruct (steps_balanced _ _ Hsteps (pristine_balanced _ Hp)) as (_ & _ & Hf & He).
  split; [done |]. split; [| done]. rewrite Hf. apply count_if_le_length.
Qed.

End Accounts.

(** ** One refresh after another *)

Section Twice.

Context {Entity Event : Type}.
Context {C : Type} `{!clientv3.Client C}.
Context {F : Type} `{!FailureHandler F Entity Event}.
Context {E : Type} `{!ErrorHandler E}.

Implicit Types (w : World (Entity := Entity) (Event := Event) (C := C) (F := F) (E := E)).
Implicit Types (ctx : Context) (name : string) (entity : Entity) (event : Event) (ttl : Z).

(** X11: a refresh that follows one that created the monitor.  When the
    store hands back the record that was put, the second refresh, of
    whatever ttl, reads the key and then renews the lease of the first
    one if the ttl is the same, with no grant, no put and no goroutine,
    and asks for a new lease with the new ttl if it is not. *)
Theorem refresh_after_create ctx name entity event ttl w c1 response c2 lease c3 u
    ctx' entity' event' ttl' c4 rest :
  is_int64 ttl ->
  clientv3.Get (client (service w)) ctx (store.Build monitorKeyBuilder name)
    = (c1, Ok response) ->
  clientv3.Kvs response = []
  \/ (exists kv rest ttl0, clientv3.Kvs response = kv :: rest
        /\ strconv.ParseInt (mvccpb.Value kv) = Ok ttl0 /\ ttl0 <> ttl) ->
  clientv3.Grant c1 ctx ttl = (c2, Ok lease) ->
  clientv3.Put c2 ctx (store.Build monitorKeyBuilder name)
    (strconv.Sprintf_d ttl) (clientv3.ID lease) = (c3, Ok u) ->
  clientv3.Get (clientv3.Watch c3 ctx (store.Build monitorKeyBuilder name)) ctx'
    (store.Build monitorKeyBuilder name)
  = (c4, Ok {| clientv3.Kvs :=
                 {| mvccpb.Key := store.Build monitorKeyBuilder name;
                    mvccpb.Value := strconv.Sprintf_d ttl;
                    mvccpb.Lease := clientv3.ID lease |} :: rest |}) ->
  exists ops,
    trace (service (RefreshMonitor ctx' name entity' event' ttl'
                      (RefreshMonitor ctx name entity event ttl w).2).2)
    = trace (service (RefreshMonitor ctx name entity event ttl w).2)
      ++ OpGet ctx' (store.Build monitorKeyBuilder name)
         :: (if bool_decide (ttl' = ttl)
             then OpKeepAliveOnce ctx' (clientv3.ID lease)
             else OpGrant ctx' ttl') :: ops
    /\ (ttl' = ttl ->
        ops = []
        /\ (RefreshMonitor ctx' name entity' event' ttl'
              (RefreshMonitor ctx name entity event ttl w).2).1
           = err_of (clientv3.KeepAliveOnce c4 ctx' (clientv3.ID lease)).2
        /\ tasks (RefreshMonitor ctx' name entity' event' ttl'
                    (RefreshMonitor ctx name entity event ttl w).2).2
           = tasks w ++ [new_watcher ctx (store.Build monitorKeyBuilder name)
                           entity event]).
Proof.
  intros Hint Hget Hstale%stale_intro Hgrant Hput Hget2.
  rewrite (RefreshMonitor_created _ _ _ _ _ _ _ _ _ _ _ _ Hget Hstale Hgrant Hput).
  cbn [snd].
  set (w1 := {| service := _; tasks := _ |}).
  assert (Hget1 : clientv3.Get (client (service w1)) ctx'
                    (store.Build monitorKeyBuilder name)
                  = (c4, Ok {| clientv3.Kvs :=
                         {| mvccpb.Key := store.Build monitorKeyBuilder name;
                            mvccpb.Value := strconv.Sprintf_d ttl;
                            mvccpb.Lease := clientv3.ID lease |} :: rest |}))
    by exact Hget2.
  pose proof (ParseInt_Sprintf_d ttl Hint) as Hparse.
  case_bool_decide as Httl.
  - subst ttl'.
    destruct (clientv3.KeepAliveOnce c4 ctx' (clientv3.ID lease)) as [c5 r] eqn:Hka.
    rewrite (RefreshMonitor_renewed ctx' name entity' event' ttl w1 c4 _ _ rest c5 r
               Hget1 eq_refl Hparse Hka).
    exists []. cbn [fst snd called service with_client log trace client tasks mvccpb.Lease].
    rewrite <- !app_assoc. cbn [app]. auto.
  - assert (Hstale' : stale {| clientv3.Kvs :=
                         {| mvccpb.Key := store.Build monitorKeyBuilder name;
                            mvccpb.Value := strconv.Sprintf_d ttl;
                            mvccpb.Lease := clientv3.ID lease |} :: rest |} ttl').
    { unfold stale. cbn. eauto. }
    destruct (clientv3.Grant c4 ctx' ttl') as [c5 [lease' | e]] eqn:Hgrant'.
    + destruct (clientv3.Put c5 ctx' (store.Build monitorKeyBuilder name)
                  (strconv.Sprintf_d ttl') (clientv3.ID lease'))
        as [c6 [u' | e]] eqn:Hput'.
      * rewrite (RefreshMonitor_created ctx' name entity' event' ttl' w1 _ _ _ _ _ _
                   Hget1 Hstale' Hgrant' Hput').
        cbn [snd called service with_client log trace client tasks].
        rewrite <- !app_assoc. cbn [app]. eexists. split; [reflexivity | done].
      * rewrite (RefreshMonitor_put_failed ctx' name entity' event' ttl' w1 _ _ _ _ _ _
                   Hget1 Hstale' Hgrant' Hput').
        cbn [snd called service with_client log trace client tasks].
        rewrite <- !app_assoc. cbn [app]. eexists. split; [reflexivity | done].
    + rewrite (RefreshMonitor_grant_failed ctx' name entity' event' ttl' w1 _ _ _ _
                 Hget1 Hstale' Hgrant').
      cbn [snd called service with_client log trace client tasks].
      rewrite <- !app_assoc. cbn [app]. eexists. split; [reflexivity | done].
Qed.

End Twice.

(** ** The command [remove-proxy-entity-id] *)

Section RemoveProxy.

Import subcommands.

Context {A Err Rest : Type} `{!APIClient A Err Rest}.
Context (New : string -> Err) (Validate : Check Rest -> option Err).

Implicit Types (cli : Cli (A := A) (Rest := Rest)) (args : list string).

(** Membership in a list that is written out. *)
Ltac in_list H :=
  repeat (apply elem_of_cons in H as [H | H]; [try done |]);
  try (apply not_elem_of_nil in H; destruct H).

(** X12: every run of the command.  It prints [OK] exactly when it
    returns nil, and then it has fetched the check of its one argument
    and sent one update; it never sends more than one update, and a check
    it sends has no proxy entity id. *)
Theorem RunE_runs args cli :
  exists new,
    acts (RunE New Validate args cli).2 = acts cli ++ new
    /\ ((RunE New Validate args cli).1 = None
        <-> exists name check,
              args = [name]
              /\ new = [ActFetchCheck name; ActUpdateCheck check; ActPrintln "OK"])
    /\ ((RunE New Validate args cli).1 = None <-> ActPrintln "OK" ∈ new)
    /\ (count_if is_update new <= 1)%nat
    /\ (forall check, ActUpdateCheck check ∈ new -> ProxyEntityID check = "").
Proof.
  unfold RunE. case_bool_decide as Hlen.
  - exists [ActHelp]. cbn [fst snd acts]. split; [done |].
    split; [| split; [| split]].
    + split; [done |]. intros (name & check & -> & _). by destruct Hlen.
    + split; [done |]. intros Hin. apply list_elem_of_singleton in Hin. done.
    + cbn. lia.
    + intros check Hin. apply list_elem_of_singleton in Hin. done.
  - destruct args as [| name [| ? ?]];
      [discriminate Hlen | | discriminate Hlen].
    change (default "" ([name] !! 0%nat)) with name.
    destruct (FetchCheck (api cli) name) as [a1 [check | e]].
    2: { exists [ActFetchCheck name]. cbn [fst snd acts]. split; [done |].
         split; [| split; [| split]].
         - split; [done |]. by intros (? & ? & _ & ?).
         - split; [done |]. intros Hin. apply list_elem_of_singleton in Hin. done.
         - cbn. lia.
         - intros ? Hin. apply list_elem_of_singleton in Hin. done. }
    destruct (Validate {| ProxyEntityID := ""; rest := rest check |}) as [e |].
    { exists [ActFetchCheck name]. cbn [fst snd acts]. split; [done |].
      split; [| split; [| split]].
      - split; [done |]. by intros (? & ? & _ & ?).
      - split; [done |]. intros Hin. apply list_elem_of_singleton in Hin. done.
      - cbn. lia.
      - intros ? Hin. apply list_elem_of_singleton in Hin. done. }
    destruct (UpdateCheck a1 {| ProxyEntityID := ""; rest := rest check |}) as [a2 [e |]].
    + exists [ActFetchCheck name; ActUpdateCheck {| ProxyEntityID := ""; rest := rest check |}].
      cbn [fst snd acts]. rewrite <- app_assoc. split; [done |].
      split; [| split; [| split]].
      * split; [done |]. by intros (? & ? & _ & ?).
      * split; [done |]. intros Hin. in_list Hin.
      * cbn. lia.
      * intros c Hin. in_list Hin. by injection Hin as ->.
    + exists [ActFetchCheck name; ActUpdateCheck {| ProxyEntityID := ""; rest := rest check |};
              ActPrintln "OK"].
      cbn [fst snd acts]. rewrite <- !app_assoc. split; [done |].
      split; [| split; [| split]].
      * split; [eauto | done].
      * split; [intros _; do 2 apply list_elem_of_further; apply list_elem_of_here | done].
      * cbn. lia.
      * intros c Hin. in_list Hin. by injection Hin as ->.
Qed.

(** X13: the errors of the command.  With no argument or more than one
    it prints the help, returns the error [invalid argument(s) received]
    and calls nothing.  An error of the fetch or of the validation is
    returned with no update sent; the validation is that of the check
    with the proxy entity id removed.  An error of the update is returned
    and [OK] is not printed. *)
Theorem RunE_errors cli :
  (forall args,
     length args <> 1%nat ->
     RunE New Validate args cli
     = (Some (New "invalid argument(s) received"),
        {| api := api cli; acts := acts cli ++ [ActHelp] |}))
  /\ (forall name a1 e,
        FetchCheck (api cli) name = (a1, inr e) ->
        RunE New Validate [name] cli
        = (Some e, {| api := a1; acts := acts cli ++ [ActFetchCheck name] |}))
  /\ (forall name a1 check e,
        FetchCheck (api cli) name = (a1, inl check) ->
        Validate {| ProxyEntityID := ""; rest := rest check |} = Some e ->
        RunE New Validate [name] cli
        = (Some e, {| api := a1; acts := acts cli ++ [ActFetchCheck name] |}))
  /\ (forall name a1 check a2 e,
        FetchCheck (api cli) name = (a1, inl check) ->
        Validate {| ProxyEntityID := ""; rest := rest check |} = None ->
        UpdateCheck a1 {| ProxyEntityID := ""; rest := rest check |} = (a2, Some e) ->
        RunE New Validate [name] cli
        = (Some e,
           {| api := a2;
              acts := acts cli
                      ++ [ActFetchCheck name;
                          ActUpdateCheck {| ProxyEntityID := ""; rest := rest check |}] |})).
Proof.
  split; [| split; [| split]].
  - intros args Hlen. unfold RunE. by rewrite bool_decide_eq_true_2.
  - intros name a1 e Hfetch. unfold RunE. cbn. by rewrite Hfetch.
  - intros name a1 check e Hfetch Hval. unfold RunE. cbn. by rewrite Hfetch, Hval.
  - intros name a1 check a2 e Hfetch Hval Hupd. unfold RunE. cbn.
    rewrite Hfetch, Hval, Hupd. cbn [acts]. by rewrite <- app_assoc.
Qed.

(** X14: the run that goes through.  The check sent is the check
    fetched, with the proxy entity id removed and all the rest as it was;
    so on a check that has no proxy entity id, the check sent is the
    check fetched. *)
Theorem RunE_clears_proxy_entity_id cli name a1 check a2 :
  FetchCheck (api cli) name = (a1, inl check) ->
  Validate {| ProxyEntityID := ""; rest := rest check |} = None ->
  UpdateCheck a1 {| ProxyEntityID := ""; rest := rest check |} = (a2, None) ->
  RunE New Validate [name] cli
  = (None,
     {| api := a2;
        acts := acts cli
                ++ [ActFetchCheck name;
                    ActUpdateCheck {| ProxyEntityID := ""; rest := rest check |};
                    ActPrintln "OK"] |})
  /\ (ProxyEntityID check = "" ->
      {| ProxyEntityID := ""; rest := rest check |} = check).
Proof.
  intros Hfetch Hval Hupd. split.
  - unfold RunE. cbn. rewrite Hfetch, Hval, Hupd. cbn [acts].
    by rewrite <- !app_assoc.
  - destruct check as [p r]. cbn. by intros ->.
Qed.

End RemoveProxy.

(** ** The request helpers *)

Section RequestHelpers.

Import controllers.

Context {Key Role Body : Type} `{!EqDecision Key}.
Context (OrganizationKey ContextRoleKey : Key).
Context (FixtureRole : string -> string -> Role).
Context (NewRequest : string -> string -> option Body -> Request (Key := Key) (Role := Role) (Body := Body)).

Implicit Types (r : Request (Key := Key) (Role := Role) (Body := Body)).

(** X15: a request with the default context.  When the two keys differ,
    its context gives the organization [default] and the roles of the
    fixture, whatever the context held under those keys before, and what
    it held under any other key is still there; method, URL and body are
    those of the request given; and the order in which organization and
    roles are added makes no difference to what the context gives. *)
Theorem requestWithDefaultContext_values r :
  OrganizationKey <> ContextRoleKey ->
  Value_of (Context_ (requestWithDefaultContext OrganizationKey ContextRoleKey FixtureRole r))
    OrganizationKey = Some (StringValue "default")
  /\ Value_of (Context_ (requestWithDefaultContext OrganizationKey ContextRoleKey
                           FixtureRole r))
       ContextRoleKey = Some (RolesValue [FixtureRole "test" "default"])
  /\ (forall k,
        k <> OrganizationKey -> k <> ContextRoleKey ->
        Value_of (Context_ (requestWithDefaultContext OrganizationKey ContextRoleKey
                              FixtureRole r)) k
        = Value_of (Context_ r) k)
  /\ Method (requestWithDefaultContext OrganizationKey ContextRoleKey FixtureRole r)
     = Method r
  /\ URL (requestWithDefaultContext OrganizationKey ContextRoleKey FixtureRole r) = URL r
  /\ Body_ (requestWithDefaultContext OrganizationKey ContextRoleKey FixtureRole r)
     = Body_ r
  /\ (forall k organization,
        Value_of (Context_ (requestWithFullAccess ContextRoleKey FixtureRole
                              (requestWithOrganization OrganizationKey r organization))) k
        = Value_of (Context_ (requestWithOrganization OrganizationKey
                                (requestWithFullAccess ContextRoleKey FixtureRole r)
                                organization)) k).
Proof.
  intros Hne.
  unfold requestWithDefaultContext, requestWithFullAccess, requestWithOrganization,
    WithContext.
  cbn [Context_ Method URL Body_ Value_of].
  repeat split.
  - rewrite decide_False by done. by rewrite decide_True.
  - by rewrite decide_True.
  - intros k Ho Hr. by rewrite !decide_False.
  - intros k organization. repeat case_decide; congruence.
Qed.

(** X16: [newRequest] does not look at its arguments.  Whatever method,
    URL and body it is given, the request it builds has the method, URL
    and body of [NewRequest("DELETE", "/entities/entity1", nil)], and,
    when the two keys differ, the organization [default] and the roles of
    the fixture in its context. *)
Theorem newRequest_ignores_arguments meth url body :
  OrganizationKey <> ContextRoleKey ->
  Method (newRequest OrganizationKey ContextRoleKey FixtureRole NewRequest meth url body)
  = Method (NewRequest "DELETE" "/entities/entity1" None)
  /\ URL (newRequest OrganizationKey ContextRoleKey FixtureRole NewRequest meth url body)
     = URL (NewRequest "DELETE" "/entities/entity1" None)
  /\ Body_ (newRequest OrganizationKey ContextRoleKey FixtureRole NewRequest meth url body)
     = Body_ (NewRequest "DELETE" "/entities/entity1" None)
  /\ Value_of (Context_ (newRequest OrganizationKey ContextRoleKey FixtureRole NewRequest
                           meth url body)) OrganizationKey
     = Some (StringValue "default")
  /\ Value_of (Context_ (newRequest OrganizationKey ContextRoleKey FixtureRole NewRequest
                           meth url body)) ContextRoleKey
     = Some (RolesValue [FixtureRole "test" "default"])
  /\ (forall meth' url' body',
        newRequest OrganizationKey ContextRoleKey FixtureRole NewRequest meth url body
        = newRequest OrganizationKey ContextRoleKey FixtureRole NewRequest meth' url' body').
Proof.
  intros Hne.
  unfold newRequest, requestWithDefaultContext, requestWithFullAccess,
    requestWithOrganization, WithContext.
  cbn [Context_ Method URL Body_ Value_of].
  repeat split.
  - rewrite decide_False by done. by rewrite decide_True.
  - by rewrite decide_True.
Qed.

End RequestHelpers.

(** ** More concrete runs *)

Section MoreRuns.

Import memstore.

(** The values of the ttls 30 and -5. *)
Lemma refresh_values_differ_witness :
  is_int64 30 /\ is_int64 (-5) /\ (strconv.Sprintf_d 30 = strconv.Sprintf_d (-5) -> 30 = -5).
Proof.
  assert (H30 : is_int64 30) by (unfold is_int64, minInt64, maxInt64; lia).
  assert (H5 : is_int64 (-5)) by (unfold is_int64, minInt64, maxInt64; lia).
  split; [exact H30 |]. split; [exact H5 |].
  exact (refresh_values_differ 30 (-5) H30 H5).
Defined.

(** The read of [entity1]'s key in [monitored]. *)
Lemma getMonitor_only_reads_witness :
  trace (service (getMonitor 7%nat "monitors/entity1" monitored).2)
  = trace (service monitored) ++ [OpGet 7%nat "monitors/entity1"]
  /\ tasks (getMonitor 7%nat "monitors/entity1" monitored).2 = tasks monitored.
Proof.
  destruct (getMonitor_only_reads 7%nat "monitors/entity1" monitored)
    as (Htrace & _ & _ & _ & Htasks).
  split; assumption.
Defined.

(** The first refresh of [entity1] leaves the handlers alone. *)
Lemma RefreshMonitor_frame_witness :
  failureHandler (service (RefreshMonitor 7%nat "entity1" "e" "ev" 30 fresh).2)
  = failureHandler (service fresh)
  /\ errorHandler (service (RefreshMonitor 7%nat "entity1" "e" "ev" 30 fresh).2)
     = errorHandler (service fresh).
Proof.
  destruct (RefreshMonitor_frame 7%nat "entity1" "e" "ev" 30 fresh) as (Hf & He & _).
  split; assumption.
Defined.

(** The calls of the first refresh of [entity1]. *)
Lemma RefreshMonitor_calls_witness :
  exists ops,
    trace (service (RefreshMonitor 7%nat "entity1" "e" "ev" 30 fresh).2)
    = trace (service fresh) ++ ops
    /\ (1 <= length ops <= 4)%nat.
Proof.
  destruct (RefreshMonitor_calls 7%nat "entity1" "e" "ev" 30 fresh)
    as (ops & Htrace & Hlen & _).
  exists ops. split; assumption.
Defined.

(** A response without events, as sent for a progress notification. *)
Lemma recv_ignored_witness :
  recv (new_watcher 7%nat "monitors/entity1" "e" "ev")
    {| clientv3.Events := []; clientv3.Canceled := false |} (service monitored)
  = (new_watcher 7%nat "monitors/entity1" "e" "ev", service monitored).
Proof.
  exact (recv_ignored (new_watcher 7%nat "monitors/entity1" "e" "ev")
           {| clientv3.Events := []; clientv3.Canceled := false |} (service monitored)
           (Forall_nil_2 _)).
Defined.

(** A PUT that comes first hides the DELETE behind it. *)
Lemma watch_loop_verdict_witness :
  watch_loop [event_on_entity1 mvccpb.PUT; event_on_entity1 mvccpb.DELETE]
    (new_watcher 7%nat "monitors/entity1" "e" "ev") (service monitored)
  = (with_state Superseded (new_watcher 7%nat "monitors/entity1" "e" "ev"),
     shutdownFunc "monitors/entity1" (service monitored)).
Proof.
  exact (watch_loop_verdict
           [event_on_entity1 mvccpb.PUT; event_on_entity1 mvccpb.DELETE]
           (new_watcher 7%nat "monitors/entity1" "e" "ev") (service monitored) eq_refl).
Defined.

(** Two events in one response, or in two. *)
Lemma watch_loop_batching_witness :
  watch_loop
    [{| clientv3.Events := clientv3.Events (event_on_entity1 mvccpb.PUT)
                           ++ clientv3.Events (event_on_entity1 mvccpb.DELETE);
        clientv3.Canceled := false |}]
    (new_watcher 7%nat "monitors/entity1" "e" "ev") (service monitored)
  = watch_loop [event_on_entity1 mvccpb.PUT; event_on_entity1 mvccpb.DELETE]
      (new_watcher 7%nat "monitors/entity1" "e" "ev") (service monitored).
Proof.
  exact (watch_loop_batching
           [{| clientv3.Events := clientv3.Events (event_on_entity1 mvccpb.PUT)
                                  ++ clientv3.Events (event_on_entity1 mvccpb.DELETE);
               clientv3.Canceled := false |}]
           [event_on_entity1 mvccpb.PUT; event_on_entity1 mvccpb.DELETE]
           (new_watcher 7%nat "monitors/entity1" "e" "ev") (service monitored) eq_refl).
Defined.

(** The process in which [entity1] was refreshed and then expired. *)
Lemma entity1_expired_reachable :
  rtc step fresh (deliver 0 (event_on_entity1 mvccpb.DELETE) monitored).
Proof.
  eapply rtc_l; [exact (step_refresh 7%nat "entity1" "e" "ev" 30 fresh) |].
  eapply rtc_l; [exact (step_deliver 0 (event_on_entity1 mvccpb.DELETE) monitored) |].
  apply rtc_refl.
Defined.

Lemma goroutines_match_watches_witness :
  pristine fresh
  /\ length (tasks (deliver 0 (event_on_entity1 mvccpb.DELETE) monitored))
     = count_if is_watch
         (trace (service (deliver 0 (event_on_entity1 mvccpb.DELETE) monitored))).
Proof.
  assert (Hp : pristine fresh) by (split; reflexivity).
  split; [exact Hp |].
  exact (goroutines_match_watches fresh _ Hp entity1_expired_reachable).
Defined.

Lemma failures_reported_once_witness :
  pristine fresh
  /\ count_if is_handle_failure
       (trace (service (deliver 0 (event_on_entity1 mvccpb.DELETE) monitored)))
     = count_if (in_state Failed)
         (tasks (deliver 0 (event_on_entity1 mvccpb.DELETE) monitored)).
Proof.
  assert (Hp : pristine fresh) by (split; reflexivity).
  split; [exact Hp |].
  exact (proj1 (failures_reported_once fresh _ Hp entity1_expired_reachable)).
Defined.

(** The second refresh of [entity1], with the ttl of the first. *)
Lemma refresh_after_create_witness :
  is_int64 30
  /\ exists ops,
       trace (service (RefreshMonitor 8%nat "entity1" "e2" "ev2" 30 monitored).2)
       = trace (service monitored)
         ++ OpGet 8%nat "monitors/entity1" :: OpKeepAliveOnce 8%nat 1 :: ops
       /\ (30 = 30 ->
           ops = []
           /\ (RefreshMonitor 8%nat "entity1" "e2" "ev2" 30 monitored).1 = None
           /\ tasks (RefreshMonitor 8%nat "entity1" "e2" "ev2" 30 monitored).2
              = [new_watcher 7%nat "monitors/entity1" "e" "ev"]).
Proof.
  assert (Hint : is_int64 30) by (unfold is_int64, minInt64, maxInt64; lia).
  split; [exact Hint |].
  refine (refresh_after_create 7%nat "entity1" "e" "ev" 30 fresh
            empty {| clientv3.Kvs := [] |}
            (grant empty 7%nat 30).1 {| clientv3.ID := 1; clientv3.TTL := 30 |}
            (put (grant empty 7%nat 30).1 7%nat "monitors/entity1" "30" 1).1 tt
            8%nat "e2" "ev2" 30 (client (service monitored)) []
            Hint _ (or_introl eq_refl) _ _ _);
    vm_compute; reflexivity.
Defined.

End MoreRuns.

Section CommandRuns.

Import subcommands.

(** One argument too many. *)
Lemma RunE_errors_witness :
  length ["check1"; "check2"] <> 1%nat
  /\ RunE id valid ["check1"; "check2"] {| api := server1; acts := [] |}
     = (Some "invalid argument(s) received", {| api := server1; acts := [ActHelp] |}).
Proof.
  assert (Hlen : length ["check1"; "check2"] <> 1%nat) by discriminate.
  split; [exact Hlen |].
  exact (proj1 (RunE_errors id valid {| api := server1; acts := [] |})
           ["check1"; "check2"] Hlen).
Defined.

(** The proxy entity id of [check1] is removed. *)
Lemma RunE_clears_proxy_entity_id_witness :
  FetchCheck server1 "check1" = (server1, inl check1)
  /\ RunE id valid ["check1"] {| api := server1; acts := [] |}
     = (None,
        {| api := server1;
           acts := [ActFetchCheck "check1";
                    ActUpdateCheck {| ProxyEntityID := ""; rest := 7%nat |};
                    ActPrintln "OK"] |}).
Proof.
  assert (Hfetch : FetchCheck server1 "check1" = (server1, inl check1))
    by (vm_compute; reflexivity).
  split; [exact Hfetch |].
  exact (proj1 (RunE_clears_proxy_entity_id id valid {| api := server1; acts := [] |}
                  "check1" server1 check1 server1 Hfetch eq_refl eq_refl)).
Defined.

Lemma RunE_runs_witness :
  exists new,
    acts (RunE id valid ["check1"] {| api := server1; acts := [] |}).2 = [] ++ new
    /\ ((RunE id valid ["check1"] {| api := server1; acts := [] |}).1 = None
        <-> ActPrintln "OK" ∈ new).
Proof.
  destruct (RunE_runs id valid ["check1"] {| api := server1; acts := [] |})
    as (new & Hacts & _ & Hok & _).
  exists new. split; assumption.
Defined.

End CommandRuns.

Section RequestRuns.

Import controllers.

(** The keys 0 and 1, and roles as pairs. *)
Lemma requestWithDefaultContext_values_witness :
  0%nat <> 1%nat
  /\ Value_of (Context_ (requestWithDefaultContext 0%nat 1%nat pair
                           (plainRequest "GET" "/checks" None))) 0%nat
     = Some (StringValue "default")
  /\ Value_of (Context_ (requestWithDefaultContext 0%nat 1%nat pair
                           (plainRequest "GET" "/checks" None))) 1%nat
     = Some (RolesValue [("test", "default")]).
Proof.
  assert (Hne : 0%nat <> 1%nat) by discriminate.
  split; [exact Hne |].
  destruct (requestWithDefaultContext_values 0%nat 1%nat pair
              (plainRequest "GET" "/checks" None) Hne) as (Horg & Hroles & _).
  split; assumption.
Defined.

(** A POST is asked for, a DELETE of [entity1] is built. *)
Lemma newRequest_ignores_arguments_witness :
  0%nat <> 1%nat
  /\ Method (newRequest 0%nat 1%nat pair plainRequest "POST" "/checks" (Some "{}"))
     = "DELETE"
  /\ URL (newRequest 0%nat 1%nat pair plainRequest "POST" "/checks" (Some "{}"))
     = "/entities/entity1"
  /\ Body_ (newRequest 0%nat 1%nat pair plainRequest "POST" "/checks" (Some "{}"))
     = None.
Proof.
  assert (Hne : 0%nat <> 1%nat) by discriminate.
  split; [exact Hne |].
  destruct (newRequest_ignores_arguments 0%nat 1%nat pair plainRequest
              "POST" "/checks" (Some "{}") Hne) as (Hm & Hu & Hb & _).
  repeat split; assumption.
Defined.

End RequestRuns.
